(** * auto_switch: the water heater relay controller

    A shallow embedding of [auto_switch.py].  The controller is a single
    object whose three methods are registered as GLib timeout callbacks:
    the relay locator, the initial state setter and the source monitor.
    Each callback runs to completion against the D-Bus as it is at that
    moment, mutates the controller's fields, and leaves a trace of the
    registry accesses, log records and timer registrations it made. *)

From Stdlib Require Import List String ZArith Bool Lia DecimalString DecimalZ.
From Stdlib Require Import DecimalNat.
Import ListNotations.
Open Scope string_scope.
Open Scope Z_scope.

(** ** Values and the bus *)

(** Values a [BusItem] hands back.  Python compares them dynamically, so
    an integer is never equal to a string. *)
Inductive PyVal : Type :=
| PInt (z : Z)
| PStr (s : string).

Definition PyVal_eqb (a b : PyVal) : bool :=
  match a, b with
  | PInt x, PInt y => Z.eqb x y
  | PStr x, PStr y => String.eqb x y
  | _, _ => false
  end.

(** Equality on values that may be [None]. *)
Definition py_eqb (a b : option PyVal) : bool :=
  match a, b with
  | None, None => true
  | Some x, Some y => PyVal_eqb x y
  | _, _ => false
  end.

(** [str(v)] as an f-string renders it. *)
Definition str_of_Z (z : Z) : string := NilZero.string_of_int (Z.to_int z).
Definition str_of_nat (n : nat) : string := NilZero.string_of_uint (Nat.to_uint n).

Definition py_str (v : PyVal) : string :=
  match v with
  | PInt z => str_of_Z z
  | PStr s => s
  end.

(** [v == k] for an integer literal [k]. *)
Definition py_eq_int (v : PyVal) (k : Z) : bool := PyVal_eqb v (PInt k).

(** A proxy object as [bus.get_object] returns it: [GetValue] yields a value
    or raises ([None]); [SetValue] succeeds or raises ([false]). *)
Record Proxy : Type := mkProxy {
  GetValue : option PyVal;
  SetValue : Z -> bool
}.

(** The system bus at the moment a callback runs: [get_object service path]
    gives a proxy, or raises [DBusException] ([None]). *)
Definition Bus : Type := string -> string -> option Proxy.

(** ** Constants *)

Definition SETTINGS_SERVICE_NAME := "com.victronenergy.settings".
Definition SYSTEM_SERVICE := "com.victronenergy.system".
Definition AC_ACTIVE_INPUT_SOURCE_PATH := "/Ac/ActiveIn/Source".
Definition RELAY_PATH_BASE := "/Relay/".
Definition CUSTOM_NAME_PATH_SUFFIX := "/CustomName".
Definition STATE_PATH_SUFFIX := "/State".
Definition SETTINGS_RELAY_BASE_PATH := "/Settings/Relay".

Definition TARGET_CUSTOM_NAMES : list string := ["AC Water Heater"; "AC WH"].
Definition MAX_RELAY_NUMBER_TO_CHECK : nat := 10.

(** ** Controller state, callbacks and the trace *)

Record Controller : Type := mkController {
  water_heater_relay_number : option nat;
  previous_ac_source : option PyVal;
  initial_state_set : bool;
  relay_found : bool;
  _ac_source_unavailable_warning_logged : bool
}.

(** [WaterHeaterController.__init__] *)
Definition init_controller : Controller :=
  {| water_heater_relay_number := None;
     previous_ac_source := None;
     initial_state_set := false;
     relay_found := false;
     _ac_source_unavailable_warning_logged := false |}.

Inductive Callback : Type := Locator | Initializer | Monitor.

Inductive Level : Type := INFO | WARNING | ERROR.

(** The log records of the program, one constructor per logging call. *)
Inductive LogMsg : Type :=
| MsgGetError (service path : string)
| MsgSetDone (service path : string) (value : Z)
| MsgSetError (service path : string)
| MsgAttemptFind (names : list string)
| MsgFound (relay_number : nat)
| MsgNotFoundYet
| MsgInitAvailable
| MsgInitialSource (source_text : string)
| MsgInitUnavailable
| MsgMonitorAvailable
| MsgSourceChanged (source_text : string) (value : PyVal)
| MsgMonitorUnavailable.

(** What a callback leaves behind.  [ERead] is one call of
    [_get_dbus_value] with the value it returned; [EWrite] is one call of
    [_set_relay_state] on a located relay with the result it returned
    ([false] when the object could not be obtained or [SetValue] raised);
    [ETimeout] is one call of [GLib.timeout_add_seconds]. *)
Inductive Event : Type :=
| ERead (service path : string) (result : option PyVal)
| EWrite (service path : string) (value : Z) (ok : bool)
| ELog (lvl : Level) (msg : LogMsg)
| ETimeout (seconds : nat) (cb : Callback).

(** ** The effect monad: read the bus, update the controller, extend the trace *)

Record Outcome (A : Type) : Type := mkOutcome {
  retval : A;
  ctl_after : Controller;
  events : list Event
}.
Arguments mkOutcome {A} _ _ _.
Arguments retval {A} _.
Arguments ctl_after {A} _.
Arguments events {A} _.

Definition M (A : Type) : Type := Bus -> Controller -> Outcome A.

Definition ret {A} (a : A) : M A := fun _ c => mkOutcome a c [].

Definition bind {A B} (m : M A) (f : A -> M B) : M B :=
  fun bus c =>
    let r1 := m bus c in
    let r2 := f (retval r1) bus (ctl_after r1) in
    mkOutcome (retval r2) (ctl_after r2) (events r1 ++ events r2)%list.

Declare Scope m_scope.
Delimit Scope m_scope with m.
Notation "x <- m ;; k" := (bind m (fun x => k))
  (at level 61, m at next level, right associativity) : m_scope.
Notation "m ;; k" := (bind m (fun _ => k))
  (at level 61, right associativity) : m_scope.
Open Scope m_scope.

Definition self {A} (field : Controller -> A) : M A :=
  fun _ c => mkOutcome (field c) c [].
Definition assign (upd : Controller -> Controller) : M unit :=
  fun _ c => mkOutcome tt (upd c) [].
Definition emit (e : Event) : M unit :=
  fun _ c => mkOutcome tt c [e].
Definition get_object (service path : string) : M (option Proxy) :=
  fun bus c => mkOutcome (bus service path) c [].

Definition logging (lvl : Level) (msg : LogMsg) : M unit := emit (ELog lvl msg).
Definition timeout_add_seconds (s : nat) (cb : Callback) : M unit :=
  emit (ETimeout s cb).

Definition set_water_heater_relay_number (v : option nat) (c : Controller) :=
  mkController v (previous_ac_source c) (initial_state_set c) (relay_found c)
               (_ac_source_unavailable_warning_logged c).
Definition set_previous_ac_source (v : option PyVal) (c : Controller) :=
  mkController (water_heater_relay_number c) v (initial_state_set c)
               (relay_found c) (_ac_source_unavailable_warning_logged c).
Definition set_initial_state_set (v : bool) (c : Controller) :=
  mkController (water_heater_relay_number c) (previous_ac_source c) v
               (relay_found c) (_ac_source_unavailable_warning_logged c).
Definition set_relay_found (v : bool) (c : Controller) :=
  mkController (water_heater_relay_number c) (previous_ac_source c)
               (initial_state_set c) v (_ac_source_unavailable_warning_logged c).
Definition set_warning_logged (v : bool) (c : Controller) :=
  mkController (water_heater_relay_number c) (previous_ac_source c)
               (initial_state_set c) (relay_found c) v.

(** ** Registry access helpers *)

Definition _get_dbus_object (service_name path : string) : M (option Proxy) :=
  get_object service_name path.

Definition _get_dbus_value (service_name path : string) : M (option PyVal) :=
  obj <- _get_dbus_object service_name path ;;
  match obj with
  | Some interface =>
      match GetValue interface with
      | Some v =>
          emit (ERead service_name path (Some v)) ;;
          ret (Some v)
      | None =>
          emit (ERead service_name path None) ;;
          logging ERROR (MsgGetError service_name path) ;;
          ret None
      end
  | None =>
      emit (ERead service_name path None) ;;
      ret None
  end.

Definition relay_state_path (relay_number : nat) : string :=
  RELAY_PATH_BASE ++ str_of_nat relay_number ++ STATE_PATH_SUFFIX.

Definition _set_relay_state (relay_number : option nat) (value : Z) : M bool :=
  match relay_number with
  | Some n =>
      let path := relay_state_path n in
      obj <- _get_dbus_object SYSTEM_SERVICE path ;;
      match obj with
      | Some interface =>
          if SetValue interface value then
            emit (EWrite SYSTEM_SERVICE path value true) ;;
            logging INFO (MsgSetDone SYSTEM_SERVICE path value) ;;
            ret true
          else
            emit (EWrite SYSTEM_SERVICE path value false) ;;
            logging ERROR (MsgSetError SYSTEM_SERVICE path) ;;
            ret false
      | None =>
          emit (EWrite SYSTEM_SERVICE path value false) ;;
          ret false
      end
  | None => ret false
  end.

(** ** Source classifier *)

Definition _interpret_ac_source (value : PyVal) : string :=
  if py_eq_int value 0 then "Unavailable"
  else if py_eq_int value 1 then "Grid"
  else if py_eq_int value 2 then "Generator"
  else if existsb (py_eq_int value) [3; 4] then "Shore"
  else if py_eq_int value 240 then "Inverting"
  else "Unknown (" ++ py_str value ++ ")".

(** [text in [...]] on a list of strings. *)
Definition str_in (text : string) (l : list string) : bool :=
  existsb (String.eqb text) l.

(** [custom_name in TARGET_CUSTOM_NAMES], where [custom_name] may be [None]
    or a value that is not a string. *)
Definition py_in (x : option PyVal) (l : list string) : bool :=
  match x with
  | Some (PStr s) => str_in s l
  | _ => false
  end.

(** ** Relay locator *)

Definition custom_name_path (relay_number : nat) : string :=
  SETTINGS_RELAY_BASE_PATH ++ "/" ++ str_of_nat relay_number
    ++ CUSTOM_NAME_PATH_SUFFIX.

(** The [for relay_number in range(...)] loop; [true] when the body returned
    from inside the loop. *)
Fixpoint scan_relays (relay_numbers : list nat) : M bool :=
  match relay_numbers with
  | [] => ret false
  | relay_number :: rest =>
      custom_name <- _get_dbus_value SETTINGS_SERVICE_NAME
                       (custom_name_path relay_number) ;;
      if py_in custom_name TARGET_CUSTOM_NAMES then
        assign (set_water_heater_relay_number (Some relay_number)) ;;
        logging INFO (MsgFound relay_number) ;;
        assign (set_relay_found true) ;;
        timeout_add_seconds 1 Initializer ;;
        ret true
      else scan_relays rest
  end.

Definition _find_water_heater_relay : M bool :=
  found <- self relay_found ;;
  if found then ret false
  else
    logging INFO (MsgAttemptFind TARGET_CUSTOM_NAMES) ;;
    returned <- scan_relays (seq 0 MAX_RELAY_NUMBER_TO_CHECK) ;;
    if returned then ret false
    else
      logging INFO MsgNotFoundYet ;;
      ret true.

(** ** Initial state setter *)

Definition is_none {A} (o : option A) : bool :=
  match o with None => true | Some _ => false end.

Definition _initialize_monitoring : M bool :=
  set <- self initial_state_set ;;
  relay <- self water_heater_relay_number ;;
  if set || is_none relay then ret false
  else
    source_value <- _get_dbus_value SYSTEM_SERVICE AC_ACTIVE_INPUT_SOURCE_PATH ;;
    match source_value with
    | Some v =>
        logged <- self _ac_source_unavailable_warning_logged ;;
        (if logged then
           logging INFO MsgInitAvailable ;;
           assign (set_warning_logged false)
         else ret tt) ;;
        let source_text := _interpret_ac_source v in
        logging INFO (MsgInitialSource source_text) ;;
        (if str_in source_text ["Grid"; "Shore"] then
           _set_relay_state relay 1
         else
           _set_relay_state relay 0) ;;
        assign (set_previous_ac_source (Some v)) ;;
        assign (set_initial_state_set true) ;;
        timeout_add_seconds 5 Monitor ;;
        ret false
    | None =>
        logged <- self _ac_source_unavailable_warning_logged ;;
        (if negb logged then
           logging WARNING MsgInitUnavailable ;;
           assign (set_warning_logged true)
         else ret tt) ;;
        ret true
    end.

(** ** Source monitor *)

Definition _monitor_ac_input_source : M bool :=
  set <- self initial_state_set ;;
  relay <- self water_heater_relay_number ;;
  if negb set || is_none relay then ret true
  else
    source_value <- _get_dbus_value SYSTEM_SERVICE AC_ACTIVE_INPUT_SOURCE_PATH ;;
    match source_value with
    | Some v =>
        logged <- self _ac_source_unavailable_warning_logged ;;
        (if logged then
           logging INFO MsgMonitorAvailable ;;
           assign (set_warning_logged false)
         else ret tt) ;;
        previous <- self previous_ac_source ;;
        (if negb (py_eqb (Some v) previous) then
           let source_text := _interpret_ac_source v in
           logging INFO (MsgSourceChanged source_text v) ;;
           (if str_in source_text ["Grid"; "Shore"] then
              _set_relay_state relay 1
            else
              _set_relay_state relay 0) ;;
           assign (set_previous_ac_source (Some v))
         else ret tt) ;;
        ret true
    | None =>
        logged <- self _ac_source_unavailable_warning_logged ;;
        (if negb logged then
           logging WARNING MsgMonitorUnavailable ;;
           assign (set_warning_logged true)
         else ret tt) ;;
        ret true
    end.

(** ** The main loop

    GLib keeps a collection of timeout sources.  When one fires, its callback
    runs to completion; the source is removed when the callback returns
    [False], and the sources the callback registered are added. *)

Definition run_callback (cb : Callback) : M bool :=
  match cb with
  | Locator => _find_water_heater_relay
  | Initializer => _initialize_monitoring
  | Monitor => _monitor_ac_input_source
  end.

Record System : Type := mkSystem {
  controller : Controller;
  timers : list Callback
}.

(** [main]: the constructor registers the locator, then the loop runs. *)
Definition boot : System := mkSystem init_controller [Locator].

Definition registered (evs : list Event) : list Callback :=
  flat_map (fun e => match e with ETimeout _ cb => [cb] | _ => [] end) evs.

Fixpoint remove_nth {A} (i : nat) (l : list A) : list A :=
  match l, i with
  | [], _ => []
  | _ :: t, O => t
  | x :: t, S j => x :: remove_nth j t
  end.

(** Source number [i] fires while the bus is [bus]. *)
Definition dispatch (i : nat) (bus : Bus) (sys : System) : System * list Event :=
  match nth_error (timers sys) i with
  | None => (sys, [])
  | Some cb =>
      let r := run_callback cb bus (controller sys) in
      (mkSystem (ctl_after r)
                ((if retval r then timers sys else remove_nth i (timers sys))
                   ++ registered (events r))%list,
       events r)
  end.

Fixpoint run (schedule : list (nat * Bus)) (sys : System) : System * list Event :=
  match schedule with
  | [] => (sys, [])
  | (i, bus) :: rest =>
      let (sys1, evs1) := dispatch i bus sys in
      let (sys2, evs2) := run rest sys1 in
      (sys2, (evs1 ++ evs2)%list)
  end.

(** Any callback invoked in any order, whether its timer is registered or not. *)
Fixpoint invoke_all (calls : list (Callback * Bus)) (c : Controller) : Controller :=
  match calls with
  | [] => c
  | (cb, bus) :: rest => invoke_all rest (ctl_after (run_callback cb bus c))
  end.

(** ** Sample buses *)

Definition item (v : PyVal) (writable : bool) : option Proxy :=
  Some (mkProxy (Some v) (fun _ => writable)).
Definition broken_item : option Proxy :=
  Some (mkProxy None (fun _ => false)).

(** Settings labels for the slots in [labels] (a [None] entry is a slot whose
    object exists but whose [GetValue] raises), an AC source reading, and a
    relay object for every slot, writable or not. *)
Definition sample_bus (labels : list (option string)) (source : option Z)
    (writable : bool) : Bus :=
  fun service path =>
    if String.eqb service SETTINGS_SERVICE_NAME then
      match find (fun k => String.eqb path (custom_name_path k))
                 (seq 0 (List.length labels)) with
      | Some k =>
          match nth k labels None with
          | Some l => item (PStr l) false
          | None => broken_item
          end
      | None => None
      end
    else if String.eqb path AC_ACTIVE_INPUT_SOURCE_PATH then
      match source with
      | Some z => item (PInt z) false
      | None => None
      end
    else
      match find (fun k => String.eqb path (relay_state_path k)) (seq 0 10) with
      | Some _ => Some (mkProxy None (fun _ => writable))
      | None => None
      end.

Definition boat_labels : list (option string) :=
  [Some "Bilge"; Some "AC Water Heater"; Some "Lights"].

(** ** What a callback sees of the bus *)

(** The value [_get_dbus_value] returns on [bus]. *)
Definition read_value (bus : Bus) (service path : string) : option PyVal :=
  match bus service path with
  | Some interface => GetValue interface
  | None => None
  end.

(** The label read for a slot, and the AC source reading. *)
Definition slot_label (bus : Bus) (relay_number : nat) : option PyVal :=
  read_value bus SETTINGS_SERVICE_NAME (custom_name_path relay_number).
Definition ac_source (bus : Bus) : option PyVal :=
  read_value bus SYSTEM_SERVICE AC_ACTIVE_INPUT_SOURCE_PATH.

(** The trace one call of [_get_dbus_value] leaves. *)
Definition read_events (bus : Bus) (service path : string) : list Event :=
  ERead service path (read_value bus service path)
  :: match bus service path with
     | Some interface =>
         if is_none (GetValue interface)
         then [ELog ERROR (MsgGetError service path)]
         else []
     | None => []
     end.

(** Result and trace of [_set_relay_state] on a located relay. *)
Definition write_ok (bus : Bus) (n : nat) (value : Z) : bool :=
  match bus SYSTEM_SERVICE (relay_state_path n) with
  | Some interface => SetValue interface value
  | None => false
  end.

Definition write_events (bus : Bus) (n : nat) (value : Z) : list Event :=
  EWrite SYSTEM_SERVICE (relay_state_path n) value (write_ok bus n value)
  :: match bus SYSTEM_SERVICE (relay_state_path n) with
     | Some interface =>
         if SetValue interface value
         then [ELog INFO (MsgSetDone SYSTEM_SERVICE (relay_state_path n) value)]
         else [ELog ERROR (MsgSetError SYSTEM_SERVICE (relay_state_path n))]
     | None => []
     end.

(** The log record one call of [_get_dbus_value] leaves: none when the
    object cannot be obtained or the value is there, an error when
    [GetValue] raises. *)
Definition read_error_log (bus : Bus) (service path : string)
    : list (Level * LogMsg) :=
  match bus service path with
  | Some interface =>
      if is_none (GetValue interface)
      then [(ERROR, MsgGetError service path)]
      else []
  | None => []
  end.

(** The on/off rule both callbacks apply to a reading. *)
Definition relay_command (v : PyVal) : Z :=
  if str_in (_interpret_ac_source v) ["Grid"; "Shore"] then 1 else 0.

(** Whether the label read for a slot is one of the target names. *)
Definition slot_matches (bus : Bus) (relay_number : nat) : bool :=
  py_in (slot_label bus relay_number) TARGET_CUSTOM_NAMES.

(** The slots one pass over [relay_numbers] reads: up to and including the
    first match. *)
Fixpoint probed (bus : Bus) (relay_numbers : list nat) : list nat :=
  match relay_numbers with
  | [] => []
  | n :: rest => n :: if slot_matches bus n then [] else probed bus rest
  end.

Definition probe_events (bus : Bus) (relay_numbers : list nat) : list Event :=
  flat_map (fun n => read_events bus SETTINGS_SERVICE_NAME (custom_name_path n))
           relay_numbers.

Definition located (k : nat) (c : Controller) : Controller :=
  mkController (Some k) (previous_ac_source c) (initial_state_set c) true
               (_ac_source_unavailable_warning_logged c).

(** ** Projections of a trace *)

(** A relay write: path and value, whatever the result. *)
Definition relay_write (e : Event) : list (string * Z) :=
  match e with
  | EWrite _ path value _ => [(path, value)]
  | _ => []
  end.
Abbreviation relay_writes := (flat_map relay_write).

(** A relay write that went through. *)
Definition write_done (e : Event) : list (string * Z) :=
  match e with
  | EWrite _ path value true => [(path, value)]
  | _ => []
  end.
Abbreviation writes_done := (flat_map write_done).

(** A registry read, with the value it gave. *)
Definition registry_read (e : Event) : list (string * string * option PyVal) :=
  match e with
  | ERead service path r => [(service, path, r)]
  | _ => []
  end.
Abbreviation registry_reads := (flat_map registry_read).

(** A log record. *)
Definition log_record (e : Event) : list (Level * LogMsg) :=
  match e with
  | ELog lvl msg => [(lvl, msg)]
  | _ => []
  end.
Abbreviation log_records := (flat_map log_record).

(** Whether a read is the AC source read. *)
Definition is_ac_source (service path : string) : bool :=
  (service =? SYSTEM_SERVICE)%string
  && (path =? AC_ACTIVE_INPUT_SOURCE_PATH)%string.

(** The source values a trace read successfully, and the relay writes it
    issued, in the order they happened. *)
Inductive Step : Type :=
| SRead (v : PyVal)
| SWrite (path : string) (value : Z).

Definition source_step (e : Event) : list Step :=
  match e with
  | ERead service path (Some v) =>
      if is_ac_source service path then [SRead v] else []
  | EWrite _ path value _ => [SWrite path value]
  | _ => []
  end.
Abbreviation source_steps := (flat_map source_step).

Definition reading (e : Event) : list PyVal :=
  match e with
  | ERead service path (Some v) =>
      if is_ac_source service path then [v] else []
  | _ => []
  end.
Abbreviation readings := (flat_map reading).

(** The value-change policy in the spec's words: reading [v_i] is followed by
    a write exactly when it differs from [v_(i-1)]; the first reading has
    no predecessor and is always followed by one. *)
Fixpoint expected_steps (relay_path : string) (previous : option PyVal)
    (vs : list PyVal) : list Step :=
  match vs with
  | [] => []
  | v :: rest =>
      SRead v
      :: (if py_eqb (Some v) previous then []
          else [SWrite relay_path (relay_command v)])
      ++ expected_steps relay_path (Some v) rest
  end%list.

(** Source read results and the notices about them, in order. *)
Inductive Notice : Type := NUnreadable | NReadable | NWarning | NRecovery.

Definition notice (e : Event) : list Notice :=
  match e with
  | ERead service path r =>
      if is_ac_source service path
      then [if is_none r then NUnreadable else NReadable]
      else []
  | ELog WARNING _ => [NWarning]
  | ELog INFO MsgInitAvailable => [NRecovery]
  | ELog INFO MsgMonitorAvailable => [NRecovery]
  | _ => []
  end.
Abbreviation notices := (flat_map notice).

(** [true] for each source read that gave a value, [false] for each that
    did not. *)
Definition ac_outcome (e : Event) : list bool :=
  match e with
  | ERead service path r =>
      if is_ac_source service path then [negb (is_none r)] else []
  | _ => []
  end.
Abbreviation ac_outcomes := (flat_map ac_outcome).

(** Episode discipline in the spec's words: a failed read that follows a
    successful one (or none) opens an episode and is warned about; further
    failed reads are not; the first successful read after an episode is
    followed by one recovery note. *)
Fixpoint expected_notices (readable_before : bool) (rs : list bool)
    : list Notice :=
  match rs with
  | [] => []
  | true :: rest =>
      NReadable :: (if readable_before then [] else [NRecovery])
      ++ expected_notices true rest
  | false :: rest =>
      NUnreadable :: (if readable_before then [NWarning] else [])
      ++ expected_notices false rest
  end%list.

(** ** The three stages of a run *)

Inductive Stage : Type :=
| Searching
| Starting (relay : nat) (warned : bool)
| Watching (relay : nat) (previous : PyVal) (warned : bool).

Definition system_of (st : Stage) : System :=
  match st with
  | Searching => boot
  | Starting n w =>
      mkSystem (mkController (Some n) None false true w) [Initializer]
  | Watching n p w =>
      mkSystem (mkController (Some n) (Some p) true true w) [Monitor]
  end.

Definition stage_previous (st : Stage) : option PyVal :=
  match st with Watching _ p _ => Some p | _ => None end.
Definition stage_warned (st : Stage) : bool :=
  match st with Searching => false | Starting _ w | Watching _ _ w => w end.
Definition stage_relay (st : Stage) : option nat :=
  match st with Searching => None | Starting n _ | Watching n _ _ => Some n end.

(** The stage after source 0 fires on [bus]. *)
Definition next_stage (bus : Bus) (st : Stage) : Stage :=
  match st with
  | Searching =>
      match find (slot_matches bus) (seq 0 MAX_RELAY_NUMBER_TO_CHECK) with
      | Some k => Starting k false
      | None => Searching
      end
  | Starting n w =>
      match ac_source bus with
      | Some v => Watching n v false
      | None => Starting n true
      end
  | Watching n p w =>
      match ac_source bus with
      | Some v => Watching n v false
      | None => Watching n p true
      end
  end.

(** The callback whose timer is registered in a stage, and the trace it
    leaves when it fires on [bus]. *)
Definition stage_callback (st : Stage) : Callback :=
  match st with
  | Searching => Locator
  | Starting _ _ => Initializer
  | Watching _ _ _ => Monitor
  end.

Definition tick_events (bus : Bus) (st : Stage) : list Event :=
  events (run_callback (stage_callback st) bus (controller (system_of st))).

(** The source reading a firing in stage [st] obtains, if it reads at all. *)
Definition tick_reading (bus : Bus) (st : Stage) : option PyVal :=
  match st with
  | Searching => None
  | _ => ac_source bus
  end.

(** A relay write with the service it went to. *)
Definition write_target (e : Event) : list (string * string * Z) :=
  match e with
  | EWrite service path value _ => [(service, path, value)]
  | _ => []
  end.
Abbreviation write_targets := (flat_map write_target).

(** The timers a controller in this state has registered since it was
    constructed, read off its flags. *)
Definition registered_so_far (c : Controller) : list Callback :=
  ((if relay_found c then [Initializer] else [])
   ++ (if initial_state_set c then [Monitor] else []))%list.

(** ** What the bus offers along a schedule *)

(** The slot one scan of [bus] finds: the first one carrying a target
    label. *)
Definition first_match (bus : Bus) : option nat :=
  find (slot_matches bus) (seq 0 MAX_RELAY_NUMBER_TO_CHECK).

(** The relay a schedule leads to: the slot found on the first firing whose
    bus has a matching slot.  Only source 0 is ever registered, so entries
    for other sources fire nothing. *)
Fixpoint located_slot (schedule : list (nat * Bus)) : option nat :=
  match schedule with
  | [] => None
  | (O, bus) :: rest =>
      match first_match bus with
      | Some k => Some k
      | None => located_slot rest
      end
  | (S _, _) :: rest => located_slot rest
  end.

(** The AC source as the bus holds it at each firing that follows the
    locating of the relay ([None] where it cannot be read); [located] tells
    whether the relay is located already. *)
Fixpoint source_offered (located : bool) (schedule : list (nat * Bus))
    : list (option PyVal) :=
  match schedule with
  | [] => []
  | (O, bus) :: rest =>
      if located then ac_source bus :: source_offered true rest
      else source_offered (negb (is_none (first_match bus))) rest
  | (S _, _) :: rest => source_offered located rest
  end.

(** The values among them, and which of them are values. *)
Definition successes (offered : list (option PyVal)) : list PyVal :=
  flat_map (fun o => match o with Some v => [v] | None => [] end) offered.

Definition readable (o : option PyVal) : bool := negb (is_none o).

(** ** Equations of the helpers and callbacks *)

#[local] Arguments SETTINGS_SERVICE_NAME : simpl never.
#[local] Arguments SYSTEM_SERVICE : simpl never.
#[local] Arguments AC_ACTIVE_INPUT_SOURCE_PATH : simpl never.
#[local] Arguments TARGET_CUSTOM_NAMES : simpl never.
#[local] Arguments MAX_RELAY_NUMBER_TO_CHECK : simpl never.
#[local] Arguments relay_state_path : simpl never.
#[local] Arguments custom_name_path : simpl never.
#[local] Arguments _interpret_ac_source : simpl never.
#[local] Arguments str_in : simpl never.
#[local] Arguments py_eqb : simpl never.
#[local] Arguments is_ac_source : simpl never.

Lemma PyVal_eqb_eq (a b : PyVal) : PyVal_eqb a b = true <-> a = b.
Proof.
  destruct a as [x|x], b as [y|y]; cbn; split; intros H;
    try discriminate; try congruence.
  - apply Z.eqb_eq in H. congruence.
  - injection H as ->. apply Z.eqb_refl.
  - apply String.eqb_eq in H. congruence.
  - injection H as ->. apply String.eqb_refl.
Qed.

Lemma py_eqb_eq (a b : option PyVal) : py_eqb a b = true <-> a = b.
Proof.
  destruct a as [x|], b as [y|]; unfold py_eqb; split; intros H;
    try discriminate; try reflexivity.
  - apply PyVal_eqb_eq in H. congruence.
  - injection H as ->. apply PyVal_eqb_eq. reflexivity.
Qed.

Lemma get_dbus_value_eq (service path : string) (bus : Bus) (c : Controller) :
  _get_dbus_value service path bus c
  = mkOutcome (read_value bus service path) c (read_events bus service path).
Proof.
  unfold _get_dbus_value, read_value, read_events, read_value, bind,
    _get_dbus_object, get_object.
  cbn. destruct (bus service path) as [p|]; cbn; [|reflexivity].
  destruct (GetValue p); reflexivity.
Qed.

Lemma set_relay_state_eq (n : nat) (value : Z) (bus : Bus) (c : Controller) :
  _set_relay_state (Some n) value bus c
  = mkOutcome (write_ok bus n value) c (write_events bus n value).
Proof.
  unfold _set_relay_state, write_ok, write_events, write_ok, bind,
    _get_dbus_object, get_object.
  cbn. destruct (bus SYSTEM_SERVICE (relay_state_path n)) as [p|]; cbn;
    [|reflexivity].
  destruct (SetValue p value); reflexivity.
Qed.

#[local] Arguments _get_dbus_value : simpl never.
#[local] Arguments read_events : simpl never.
#[local] Arguments write_events : simpl never.
#[local] Arguments _set_relay_state : simpl never.

(** *** The initial state setter, case by case *)

Lemma initializer_guard (bus : Bus) (c : Controller) :
  initial_state_set c = true \/ water_heater_relay_number c = None ->
  _initialize_monitoring bus c = mkOutcome false c [].
Proof.
  intros H. unfold _initialize_monitoring, bind, self. cbn.
  destruct H as [H|H]; rewrite H; cbn; [reflexivity|].
  rewrite orb_true_r. reflexivity.
Qed.

Lemma initializer_unreadable (bus : Bus) (c : Controller) (n : nat) :
  initial_state_set c = false ->
  water_heater_relay_number c = Some n ->
  ac_source bus = None ->
  _initialize_monitoring bus c
  = mkOutcome true
      (mkController (Some n) (previous_ac_source c) false (relay_found c) true)
      (read_events bus SYSTEM_SERVICE AC_ACTIVE_INPUT_SOURCE_PATH
         ++ if _ac_source_unavailable_warning_logged c then []
            else [ELog WARNING MsgInitUnavailable])%list.
Proof.
  intros Hs Hr Hv. destruct c as [r p s f w]; cbn in *; subst.
  unfold _initialize_monitoring, bind, self. cbn.
  rewrite get_dbus_value_eq. cbn. unfold ac_source in Hv. rewrite Hv.
  destruct w; reflexivity.
Qed.

Lemma initializer_readable (bus : Bus) (c : Controller) (n : nat) (v : PyVal) :
  initial_state_set c = false ->
  water_heater_relay_number c = Some n ->
  ac_source bus = Some v ->
  _initialize_monitoring bus c
  = mkOutcome false
      (mkController (Some n) (Some v) true (relay_found c) false)
      (read_events bus SYSTEM_SERVICE AC_ACTIVE_INPUT_SOURCE_PATH
         ++ (if _ac_source_unavailable_warning_logged c
             then [ELog INFO MsgInitAvailable] else [])
         ++ [ELog INFO (MsgInitialSource (_interpret_ac_source v))]
         ++ write_events bus n (relay_command v)
         ++ [ETimeout 5 Monitor])%list.
Proof.
  intros Hs Hr Hv. destruct c as [r p s f w]; cbn in *; subst.
  unfold _initialize_monitoring, bind, self. cbn.
  rewrite get_dbus_value_eq. cbn. unfold ac_source in Hv. rewrite Hv.
  unfold relay_command.
  destruct w; cbn;
    destruct (str_in (_interpret_ac_source v) ["Grid"; "Shore"]);
    rewrite set_relay_state_eq; cbn; rewrite <- ?app_assoc; reflexivity.
Qed.

(** *** The source monitor, case by case *)

Lemma monitor_guard (bus : Bus) (c : Controller) :
  initial_state_set c = false \/ water_heater_relay_number c = None ->
  _monitor_ac_input_source bus c = mkOutcome true c [].
Proof.
  intros H. unfold _monitor_ac_input_source, bind, self. cbn.
  destruct H as [H|H]; rewrite H; cbn; [reflexivity|].
  rewrite orb_true_r. reflexivity.
Qed.

Lemma monitor_unreadable (bus : Bus) (c : Controller) (n : nat) :
  initial_state_set c = true ->
  water_heater_relay_number c = Some n ->
  ac_source bus = None ->
  _monitor_ac_input_source bus c
  = mkOutcome true
      (mkController (Some n) (previous_ac_source c) true (relay_found c) true)
      (read_events bus SYSTEM_SERVICE AC_ACTIVE_INPUT_SOURCE_PATH
         ++ if _ac_source_unavailable_warning_logged c then []
            else [ELog WARNING MsgMonitorUnavailable])%list.
Proof.
  intros Hs Hr Hv. destruct c as [r p s f w]; cbn in *; subst.
  unfold _monitor_ac_input_source, bind, self. cbn.
  rewrite get_dbus_value_eq. cbn. unfold ac_source in Hv. rewrite Hv.
  destruct w; reflexivity.
Qed.

Lemma monitor_readable (bus : Bus) (c : Controller) (n : nat) (v : PyVal) :
  initial_state_set c = true ->
  water_heater_relay_number c = Some n ->
  ac_source bus = Some v ->
  _monitor_ac_input_source bus c
  = mkOutcome true
      (mkController (Some n) (Some v) true (relay_found c) false)
      (read_events bus SYSTEM_SERVICE AC_ACTIVE_INPUT_SOURCE_PATH
         ++ (if _ac_source_unavailable_warning_logged c
             then [ELog INFO MsgMonitorAvailable] else [])
         ++ if py_eqb (Some v) (previous_ac_source c) then []
            else ELog INFO (MsgSourceChanged (_interpret_ac_source v) v)
                 :: write_events bus n (relay_command v))%list.
Proof.
  intros Hs Hr Hv. destruct c as [r p s f w]; cbn in *; subst.
  unfold _monitor_ac_input_source, bind, self. cbn.
  rewrite get_dbus_value_eq. cbn. unfold ac_source in Hv. rewrite Hv.
  unfold relay_command.
  destruct (py_eqb (Some v) p) eqn:E.
  - destruct w; cbn; rewrite E; cbn; apply py_eqb_eq in E; subst p;
      rewrite ?app_nil_r; reflexivity.
  - destruct w; cbn; rewrite E; cbn;
      destruct (str_in (_interpret_ac_source v) ["Grid"; "Shore"]);
      rewrite set_relay_state_eq; cbn; rewrite ?app_nil_r; reflexivity.
Qed.

(** *** The relay locator *)

Lemma scan_relays_eq (l : list nat) (bus : Bus) (c : Controller) :
  scan_relays l bus c
  = match find (slot_matches bus) l with
    | Some k =>
        mkOutcome true (located k c)
          (probe_events bus (probed bus l)
             ++ [ELog INFO (MsgFound k); ETimeout 1 Initializer])%list
    | None => mkOutcome false c (probe_events bus (probed bus l))
    end.
Proof.
  induction l as [|n rest IH]; [reflexivity|].
  cbn [scan_relays find probed]. unfold bind at 1.
  rewrite get_dbus_value_eq. cbn [retval ctl_after events].
  fold (slot_label bus n). fold (slot_matches bus n).
  destruct (slot_matches bus n) eqn:Hm.
  - cbn. rewrite app_nil_r. reflexivity.
  - rewrite IH. destruct (find (slot_matches bus) rest); cbn;
      rewrite <- ?app_assoc; reflexivity.
Qed.

Lemma locator_guard (bus : Bus) (c : Controller) :
  relay_found c = true ->
  _find_water_heater_relay bus c = mkOutcome false c [].
Proof.
  intros H. unfold _find_water_heater_relay, bind, self. cbn. rewrite H.
  reflexivity.
Qed.

Lemma locator_scan (bus : Bus) (c : Controller) :
  relay_found c = false ->
  _find_water_heater_relay bus c
  = match find (slot_matches bus) (seq 0 MAX_RELAY_NUMBER_TO_CHECK) with
    | Some k =>
        mkOutcome false (located k c)
          (ELog INFO (MsgAttemptFind TARGET_CUSTOM_NAMES)
           :: probe_events bus (probed bus (seq 0 MAX_RELAY_NUMBER_TO_CHECK))
           ++ [ELog INFO (MsgFound k); ETimeout 1 Initializer])%list
    | None =>
        mkOutcome true c
          (ELog INFO (MsgAttemptFind TARGET_CUSTOM_NAMES)
           :: probe_events bus (probed bus (seq 0 MAX_RELAY_NUMBER_TO_CHECK))
           ++ [ELog INFO MsgNotFoundYet])%list
    end.
Proof.
  intros H. unfold _find_water_heater_relay.
  generalize (seq 0 MAX_RELAY_NUMBER_TO_CHECK) as slots. intros slots.
  unfold bind, self, logging, emit, ret.
  cbn [retval ctl_after events]. rewrite H.
  cbn [retval ctl_after events]. rewrite scan_relays_eq.
  destruct (find (slot_matches bus) slots);
    cbn [retval ctl_after events app]; rewrite ?app_nil_r; reflexivity.
Qed.

(** A pass that finds nothing reads every slot; one that finds slot [k]
    reads the slots up to [k]. *)
Lemma probed_none (bus : Bus) (l : list nat) :
  find (slot_matches bus) l = None -> probed bus l = l.
Proof.
  induction l as [|n rest IH]; cbn; [reflexivity|].
  destruct (slot_matches bus n); [discriminate|].
  intros H. rewrite IH by exact H. reflexivity.
Qed.

Lemma probed_seq_some (bus : Bus) (len start k : nat) :
  find (slot_matches bus) (seq start len) = Some k ->
  (start <= k < start + len)%nat
  /\ slot_matches bus k = true
  /\ (forall j, (start <= j < k)%nat -> slot_matches bus j = false)
  /\ probed bus (seq start len) = seq start (S k - start).
Proof.
  revert start. induction len as [|len IH]; intros start;
    cbn [seq find probed]; [discriminate|].
  destruct (slot_matches bus start) eqn:Hm.
  - intros [= <-]. repeat split; try lia; [exact Hm|].
    replace (S start - start)%nat with 1%nat by lia. reflexivity.
  - intros H. destruct (IH _ H) as (Hk & Hmk & Hlow & Hp).
    repeat split; try lia; [exact Hmk| |].
    + intros j Hj. destruct (Nat.eq_dec j start) as [->|Hne]; [exact Hm|].
      apply Hlow. lia.
    + rewrite Hp. replace (S k - start)%nat with (S (S k - S start)) by lia.
      reflexivity.
Qed.

(** *** How each projection sees one registry access *)

Lemma is_ac_source_ac :
  is_ac_source SYSTEM_SERVICE AC_ACTIVE_INPUT_SOURCE_PATH = true.
Proof. reflexivity. Qed.

Lemma is_ac_source_settings (path : string) :
  is_ac_source SETTINGS_SERVICE_NAME path = false.
Proof. reflexivity. Qed.

Ltac access_cases bus :=
  unfold read_events, write_events, write_ok, ac_source, read_value;
  repeat match goal with
         | |- context [bus ?s ?p] =>
             let g := fresh "g" in
             destruct (bus s p) as [[[g|] ?]|]
         end;
  cbn [flat_map app is_none GetValue SetValue negb
       source_step reading notice ac_outcome relay_write write_done];
  rewrite ?is_ac_source_ac, ?is_ac_source_settings;
  try reflexivity.

Section Pieces.
Variable bus : Bus.

Lemma registered_read s p : registered (read_events bus s p) = [].
Proof. unfold registered. access_cases bus. Qed.

Lemma registered_write n v : registered (write_events bus n v) = [].
Proof.
  unfold registered. access_cases bus; destruct (_ v); reflexivity.
Qed.

Lemma source_steps_ac :
  source_steps (read_events bus SYSTEM_SERVICE AC_ACTIVE_INPUT_SOURCE_PATH)
  = match ac_source bus with Some v => [SRead v] | None => [] end.
Proof. access_cases bus. Qed.

Lemma source_steps_settings p :
  source_steps (read_events bus SETTINGS_SERVICE_NAME p) = [].
Proof. access_cases bus. Qed.

Lemma source_steps_write n v :
  source_steps (write_events bus n v) = [SWrite (relay_state_path n) v].
Proof. access_cases bus; destruct (_ v); reflexivity. Qed.

Lemma readings_ac :
  readings (read_events bus SYSTEM_SERVICE AC_ACTIVE_INPUT_SOURCE_PATH)
  = match ac_source bus with Some v => [v] | None => [] end.
Proof. access_cases bus. Qed.

Lemma readings_settings p :
  readings (read_events bus SETTINGS_SERVICE_NAME p) = [].
Proof. access_cases bus. Qed.

Lemma readings_write n v : readings (write_events bus n v) = [].
Proof. access_cases bus; destruct (_ v); reflexivity. Qed.

Lemma notices_ac :
  notices (read_events bus SYSTEM_SERVICE AC_ACTIVE_INPUT_SOURCE_PATH)
  = [if is_none (ac_source bus) then NUnreadable else NReadable].
Proof. access_cases bus. Qed.

Lemma notices_settings p :
  notices (read_events bus SETTINGS_SERVICE_NAME p) = [].
Proof. access_cases bus. Qed.

Lemma notices_write n v : notices (write_events bus n v) = [].
Proof. access_cases bus; destruct (_ v); reflexivity. Qed.

Lemma ac_outcomes_ac :
  ac_outcomes (read_events bus SYSTEM_SERVICE AC_ACTIVE_INPUT_SOURCE_PATH)
  = [negb (is_none (ac_source bus))].
Proof. access_cases bus. Qed.

Lemma ac_outcomes_settings p :
  ac_outcomes (read_events bus SETTINGS_SERVICE_NAME p) = [].
Proof. access_cases bus. Qed.

Lemma ac_outcomes_write n v : ac_outcomes (write_events bus n v) = [].
Proof. access_cases bus; destruct (_ v); reflexivity. Qed.

Lemma relay_writes_read s p : relay_writes (read_events bus s p) = [].
Proof. access_cases bus. Qed.

Lemma relay_writes_write n v :
  relay_writes (write_events bus n v) = [(relay_state_path n, v)].
Proof. access_cases bus; destruct (_ v); reflexivity. Qed.

(** A pass of the locator reads labels only. *)
Lemma probe_events_quiet l :
  registered (probe_events bus l) = []
  /\ source_steps (probe_events bus l) = []
  /\ readings (probe_events bus l) = []
  /\ notices (probe_events bus l) = []
  /\ ac_outcomes (probe_events bus l) = []
  /\ relay_writes (probe_events bus l) = [].
Proof.
  induction l as [|n l (I1 & I2 & I3 & I4 & I5 & I6)];
    [repeat split; reflexivity|].
  unfold probe_events in *. cbn [flat_map]. unfold registered in *.
  rewrite !flat_map_app, I1, I2, I3, I4, I5, I6.
  fold (registered (read_events bus SETTINGS_SERVICE_NAME (custom_name_path n))).
  rewrite registered_read, source_steps_settings, readings_settings,
    notices_settings, ac_outcomes_settings, relay_writes_read.
  repeat split; reflexivity.
Qed.
End Pieces.


(** ** The main loop moves through the three stages *)

Lemma dispatch_idle (i : nat) (bus : Bus) (st : Stage) :
  dispatch (S i) bus (system_of st) = (system_of st, []).
Proof. destruct st, i; reflexivity. Qed.

Lemma dispatch_fire (bus : Bus) (st : Stage) :
  dispatch 0 bus (system_of st)
  = (system_of (next_stage bus st), tick_events bus st).
Proof.
  unfold tick_events, dispatch.
  destruct st as [|n w|n p w];
    cbn [system_of boot timers nth_error controller run_callback
         stage_callback next_stage].
  - rewrite locator_scan by reflexivity.
    destruct (probe_events_quiet bus
                (probed bus (seq 0 MAX_RELAY_NUMBER_TO_CHECK))) as (Hq & _).
    destruct (find (slot_matches bus) (seq 0 MAX_RELAY_NUMBER_TO_CHECK));
      cbn [retval ctl_after events remove_nth]; unfold registered in *;
      cbn [flat_map app]; rewrite flat_map_app, Hq; reflexivity.
  - destruct (ac_source bus) as [v|] eqn:Hv.
    + rewrite (initializer_readable bus _ n v) by (reflexivity || exact Hv).
      cbn [retval ctl_after events remove_nth relay_found
           _ac_source_unavailable_warning_logged].
      unfold registered. rewrite !flat_map_app.
      fold (registered (read_events bus SYSTEM_SERVICE AC_ACTIVE_INPUT_SOURCE_PATH)).
      fold (registered (write_events bus n (relay_command v))).
      rewrite registered_read, registered_write. destruct w; reflexivity.
    + rewrite (initializer_unreadable bus _ n) by (reflexivity || exact Hv).
      cbn [retval ctl_after events remove_nth relay_found previous_ac_source
           _ac_source_unavailable_warning_logged].
      unfold registered. rewrite !flat_map_app.
      fold (registered (read_events bus SYSTEM_SERVICE AC_ACTIVE_INPUT_SOURCE_PATH)).
      rewrite registered_read. destruct w; reflexivity.
  - destruct (ac_source bus) as [v|] eqn:Hv.
    + rewrite (monitor_readable bus _ n v) by (reflexivity || exact Hv).
      cbn [retval ctl_after events remove_nth relay_found previous_ac_source
           _ac_source_unavailable_warning_logged].
      unfold registered. rewrite !flat_map_app.
      fold (registered (read_events bus SYSTEM_SERVICE AC_ACTIVE_INPUT_SOURCE_PATH)).
      rewrite registered_read.
      destruct w, (py_eqb (Some v) (Some p)); cbn [flat_map app];
        try reflexivity;
        fold (registered (write_events bus n (relay_command v)));
        rewrite registered_write; reflexivity.
    + rewrite (monitor_unreadable bus _ n) by (reflexivity || exact Hv).
      cbn [retval ctl_after events remove_nth relay_found previous_ac_source
           _ac_source_unavailable_warning_logged].
      unfold registered. rewrite !flat_map_app.
      fold (registered (read_events bus SYSTEM_SERVICE AC_ACTIVE_INPUT_SOURCE_PATH)).
      rewrite registered_read. destruct w; reflexivity.
Qed.

Lemma run_cons (i : nat) (bus : Bus) (rest : list (nat * Bus)) (sys : System) :
  run ((i, bus) :: rest) sys
  = (fst (run rest (fst (dispatch i bus sys))),
     (snd (dispatch i bus sys) ++ snd (run rest (fst (dispatch i bus sys))))%list).
Proof.
  cbn [run]. destruct (dispatch i bus sys) as [s1 e1]. cbn [fst snd].
  destruct (run rest s1); reflexivity.
Qed.

(** Every state the loop reaches is the state of a stage. *)
Lemma run_stage (schedule : list (nat * Bus)) (st : Stage) :
  exists st', fst (run schedule (system_of st)) = system_of st'
              /\ (forall n, stage_relay st = Some n -> stage_relay st' = Some n).
Proof.
  revert st. induction schedule as [|[i bus] rest IH]; intros st.
  - exists st. split; [reflexivity|auto].
  - rewrite run_cons. cbn [fst]. destruct i as [|i].
    + rewrite dispatch_fire. cbn [fst].
      destruct (IH (next_stage bus st)) as (st' & E & Hr).
      exists st'. split; [exact E|]. intros n Hn. apply Hr.
      destruct st; cbn in *; try discriminate;
        destruct (ac_source bus); exact Hn.
    + rewrite dispatch_idle. cbn [fst]. apply IH.
Qed.

(** *** What one firing shows through each projection *)

Lemma tick_events_searching (bus : Bus) :
  tick_events bus Searching
  = (ELog INFO (MsgAttemptFind TARGET_CUSTOM_NAMES)
     :: probe_events bus (probed bus (seq 0 MAX_RELAY_NUMBER_TO_CHECK))
     ++ match find (slot_matches bus) (seq 0 MAX_RELAY_NUMBER_TO_CHECK) with
        | Some k => [ELog INFO (MsgFound k); ETimeout 1 Initializer]
        | None => [ELog INFO MsgNotFoundYet]
        end)%list.
Proof.
  unfold tick_events. cbn [stage_callback run_callback system_of boot controller].
  rewrite locator_scan by reflexivity.
  destruct (find (slot_matches bus) (seq 0 MAX_RELAY_NUMBER_TO_CHECK));
    reflexivity.
Qed.

Lemma tick_events_starting (bus : Bus) (n : nat) (w : bool) :
  tick_events bus (Starting n w)
  = match ac_source bus with
    | Some v =>
        read_events bus SYSTEM_SERVICE AC_ACTIVE_INPUT_SOURCE_PATH
        ++ (if w then [ELog INFO MsgInitAvailable] else [])
        ++ [ELog INFO (MsgInitialSource (_interpret_ac_source v))]
        ++ write_events bus n (relay_command v)
        ++ [ETimeout 5 Monitor]
    | None =>
        read_events bus SYSTEM_SERVICE AC_ACTIVE_INPUT_SOURCE_PATH
        ++ (if w then [] else [ELog WARNING MsgInitUnavailable])
    end%list.
Proof.
  unfold tick_events. cbn [stage_callback run_callback system_of controller].
  destruct (ac_source bus) as [v|] eqn:Hv.
  - rewrite (initializer_readable bus _ n v) by (reflexivity || exact Hv).
    reflexivity.
  - rewrite (initializer_unreadable bus _ n) by (reflexivity || exact Hv).
    reflexivity.
Qed.

Lemma tick_events_watching (bus : Bus) (n : nat) (p : PyVal) (w : bool) :
  tick_events bus (Watching n p w)
  = match ac_source bus with
    | Some v =>
        read_events bus SYSTEM_SERVICE AC_ACTIVE_INPUT_SOURCE_PATH
        ++ (if w then [ELog INFO MsgMonitorAvailable] else [])
        ++ (if py_eqb (Some v) (Some p) then []
            else ELog INFO (MsgSourceChanged (_interpret_ac_source v) v)
                 :: write_events bus n (relay_command v))
    | None =>
        read_events bus SYSTEM_SERVICE AC_ACTIVE_INPUT_SOURCE_PATH
        ++ (if w then [] else [ELog WARNING MsgMonitorUnavailable])
    end%list.
Proof.
  unfold tick_events. cbn [stage_callback run_callback system_of controller].
  destruct (ac_source bus) as [v|] eqn:Hv.
  - rewrite (monitor_readable bus _ n v) by (reflexivity || exact Hv).
    reflexivity.
  - rewrite (monitor_unreadable bus _ n) by (reflexivity || exact Hv).
    reflexivity.
Qed.

(** Unfold one firing and push a projection through its trace. *)
Ltac push_projection :=
  repeat progress
         (rewrite ?flat_map_app, ?source_steps_ac, ?source_steps_write,
            ?readings_ac, ?readings_write, ?notices_ac, ?notices_write,
            ?ac_outcomes_ac, ?ac_outcomes_write, ?relay_writes_read,
            ?relay_writes_write;
          cbn [flat_map app source_step reading notice ac_outcome
                        relay_write is_none negb expected_steps
                        expected_notices]).

Ltac through_tick bus :=
  rewrite ?tick_events_searching, ?tick_events_starting,
    ?tick_events_watching;
  cbn [tick_reading stage_relay stage_previous stage_warned next_stage];
  destruct (ac_source bus) eqn:?;
  push_projection;
  repeat match goal with
         | H : ac_source bus = _ |- _ => rewrite ?H; clear H
         end;
  cbn [is_none negb];
  repeat match goal with
         | |- context [if ?b then _ else _] =>
             destruct b eqn:?; cbn [is_none negb]
         end;
  push_projection.

Lemma tick_readings (bus : Bus) (st : Stage) :
  readings (tick_events bus st)
  = match tick_reading bus st with Some v => [v] | None => [] end.
Proof.
  destruct st as [|n w|n p w].
  - rewrite tick_events_searching. cbn [tick_reading flat_map reading app].
    rewrite flat_map_app.
    destruct (probe_events_quiet bus
                (probed bus (seq 0 MAX_RELAY_NUMBER_TO_CHECK)))
      as (_ & _ & -> & _).
    destruct (find _ _); reflexivity.
  - through_tick bus; reflexivity.
  - through_tick bus; reflexivity.
Qed.

Lemma tick_quiet_searching (bus : Bus) :
  source_steps (tick_events bus Searching) = []
  /\ notices (tick_events bus Searching) = []
  /\ ac_outcomes (tick_events bus Searching) = []
  /\ relay_writes (tick_events bus Searching) = [].
Proof.
  rewrite tick_events_searching.
  cbn [flat_map source_step notice ac_outcome relay_write app].
  rewrite !flat_map_app.
  destruct (probe_events_quiet bus
              (probed bus (seq 0 MAX_RELAY_NUMBER_TO_CHECK)))
    as (_ & -> & _ & -> & -> & ->).
  destruct (find _ _); repeat split; reflexivity.
Qed.

Lemma tick_source_steps (bus : Bus) (st : Stage) (path : string) :
  (forall n, stage_relay st = Some n -> path = relay_state_path n) ->
  source_steps (tick_events bus st)
  = expected_steps path (stage_previous st)
      match tick_reading bus st with Some v => [v] | None => [] end.
Proof.
  intros Hp. destruct st as [|n w|n p w].
  - destruct (tick_quiet_searching bus) as (-> & _). reflexivity.
  - rewrite (Hp n eq_refl). through_tick bus; try reflexivity;
      unfold py_eqb in *; discriminate.
  - rewrite (Hp n eq_refl). through_tick bus; try reflexivity; congruence.
Qed.

Lemma tick_previous (bus : Bus) (st : Stage) :
  stage_previous (next_stage bus st)
  = match tick_reading bus st with
    | Some v => Some v
    | None => stage_previous st
    end.
Proof.
  destruct st; cbn; [destruct (find _ _)|..]; try reflexivity;
    destruct (ac_source bus); reflexivity.
Qed.

Lemma tick_ac_outcomes (bus : Bus) (st : Stage) :
  ac_outcomes (tick_events bus st)
  = match st with
    | Searching => []
    | _ => [negb (is_none (ac_source bus))]
    end.
Proof.
  destruct st as [|n w|n p w].
  - apply tick_quiet_searching.
  - through_tick bus; reflexivity.
  - through_tick bus; reflexivity.
Qed.

Lemma tick_notices (bus : Bus) (st : Stage) :
  notices (tick_events bus st)
  = expected_notices (negb (stage_warned st)) (ac_outcomes (tick_events bus st)).
Proof.
  destruct st as [|n w|n p w].
  - destruct (tick_quiet_searching bus) as (_ & -> & -> & _). reflexivity.
  - through_tick bus; reflexivity.
  - through_tick bus; reflexivity.
Qed.

Lemma tick_warned (bus : Bus) (st : Stage) :
  stage_warned (next_stage bus st)
  = match st with
    | Searching => false
    | _ => is_none (ac_source bus)
    end.
Proof.
  destruct st; cbn; [destruct (find _ _)|..]; try reflexivity;
    destruct (ac_source bus); reflexivity.
Qed.

Lemma tick_relay_writes (bus : Bus) (st : Stage) :
  relay_writes (tick_events bus st)
  = match st with
    | Searching => []
    | Starting n _ =>
        match ac_source bus with
        | Some v => [(relay_state_path n, relay_command v)]
        | None => []
        end
    | Watching n p _ =>
        match ac_source bus with
        | Some v => if py_eqb (Some v) (Some p) then []
                    else [(relay_state_path n, relay_command v)]
        | None => []
        end
    end.
Proof.
  destruct st as [|n w|n p w].
  - apply tick_quiet_searching.
  - through_tick bus; reflexivity.
  - through_tick bus; reflexivity.
Qed.

(** *** Whole runs *)

Lemma controller_of_stage (st : Stage) :
  water_heater_relay_number (controller (system_of st)) = stage_relay st
  /\ previous_ac_source (controller (system_of st)) = stage_previous st
  /\ _ac_source_unavailable_warning_logged (controller (system_of st))
     = stage_warned st.
Proof. destruct st; repeat split; reflexivity. Qed.

Lemma run_source_steps (schedule : list (nat * Bus)) (st : Stage)
    (path : string) :
  (forall n,
      water_heater_relay_number (controller (fst (run schedule (system_of st))))
      = Some n -> path = relay_state_path n) ->
  source_steps (snd (run schedule (system_of st)))
  = expected_steps path (stage_previous st)
      (readings (snd (run schedule (system_of st)))).
Proof.
  revert st. induction schedule as [|[i bus] rest IH]; intros st Hp;
    [reflexivity|].
  rewrite run_cons in *. cbn [fst snd] in *. destruct i as [|i].
  - rewrite dispatch_fire in *. cbn [fst snd] in *.
    rewrite !flat_map_app, tick_readings, (IH _ Hp), tick_previous.
    rewrite (tick_source_steps bus st path).
    + destruct (tick_reading bus st) as [v|]; [|reflexivity].
      cbn [expected_steps app]. rewrite app_nil_r. reflexivity.
    + intros n Hn. apply Hp.
      destruct (run_stage rest (next_stage bus st)) as (st' & -> & Hr).
      rewrite (proj1 (controller_of_stage st')). apply Hr.
      destruct st; cbn in *; try discriminate;
        destruct (ac_source bus); exact Hn.
  - rewrite dispatch_idle in *. cbn [fst snd app] in *. apply IH, Hp.
Qed.

Lemma run_notices (schedule : list (nat * Bus)) (st : Stage) :
  notices (snd (run schedule (system_of st)))
  = expected_notices (negb (stage_warned st))
      (ac_outcomes (snd (run schedule (system_of st)))).
Proof.
  revert st. induction schedule as [|[i bus] rest IH]; intros st;
    [reflexivity|].
  rewrite run_cons. cbn [fst snd]. destruct i as [|i].
  - rewrite dispatch_fire. cbn [fst snd].
    rewrite !flat_map_app, IH, tick_notices, tick_warned, tick_ac_outcomes.
    destruct st as [|n w|n p w]; [reflexivity|..];
      destruct (ac_source bus), w; cbn; reflexivity.
  - rewrite dispatch_idle. cbn [fst snd app]. apply IH.
Qed.

Lemma run_previous_kept (schedule : list (nat * Bus)) (st : Stage) :
  stage_previous st <> None ->
  previous_ac_source (controller (fst (run schedule (system_of st)))) <> None.
Proof.
  revert st. induction schedule as [|[i bus] rest IH]; intros st Hp.
  - cbn [run fst]. rewrite (proj1 (proj2 (controller_of_stage st))). exact Hp.
  - rewrite run_cons. cbn [fst]. destruct i as [|i].
    + rewrite dispatch_fire. cbn [fst]. apply IH. rewrite tick_previous.
      destruct (tick_reading bus st); [discriminate|exact Hp].
    + rewrite dispatch_idle. cbn [fst]. apply IH, Hp.
Qed.

(** Until the first reading is recorded nothing has been written, and once
    it is recorded a write has been issued. *)
Lemma run_written (schedule : list (nat * Bus)) (st : Stage) :
  stage_previous st = None ->
  previous_ac_source (controller (fst (run schedule (system_of st)))) = None
  <-> relay_writes (snd (run schedule (system_of st))) = [].
Proof.
  revert st. induction schedule as [|[i bus] rest IH]; intros st Hp.
  - cbn [run fst snd flat_map].
    rewrite (proj1 (proj2 (controller_of_stage st))). tauto.
  - rewrite run_cons. cbn [fst snd]. destruct i as [|i].
    + rewrite dispatch_fire. cbn [fst snd].
      rewrite flat_map_app, tick_relay_writes.
      destruct st as [|n w|n p w]; [| |discriminate].
      * cbn [app]. apply IH. rewrite tick_previous. reflexivity.
      * destruct (ac_source bus) as [v|] eqn:Hv.
        -- split; [|discriminate]. intros H. exfalso. revert H.
           apply run_previous_kept. cbn. rewrite Hv. discriminate.
        -- cbn [app]. apply IH. cbn. rewrite Hv. reflexivity.
    + rewrite dispatch_idle. cbn [fst snd app]. apply IH, Hp.
Qed.

(** ** The source classifier *)

Lemma append_closing_inj (x y : string) :
  (x ++ ")")%string = (y ++ ")")%string -> x = y.
Proof.
  revert y. induction x as [|a x IH]; intros [|b y]; cbn; intros H.
  - reflexivity.
  - injection H as _ H. destruct y; discriminate.
  - injection H as _ H. destruct x; discriminate.
  - injection H as -> H. f_equal. apply IH, H.
Qed.

Lemma str_of_Z_inj (a b : Z) : str_of_Z a = str_of_Z b -> a = b.
Proof.
  unfold str_of_Z. intros H. apply DecimalZ.to_int_inj.
  assert (Hn : forall z, Z.to_int z <> Decimal.Pos Decimal.Nil
                         /\ Z.to_int z <> Decimal.Neg Decimal.Nil).
  { intros [|p|p]; cbn; split; try discriminate; intros [= Hp];
      revert Hp; apply DecimalPos.Unsigned.to_uint_nonnil. }
  assert (Hs : Some (Z.to_int a) = Some (Z.to_int b)).
  { rewrite <- (NilZero.isi (Z.to_int a)), <- (NilZero.isi (Z.to_int b))
      by apply Hn. rewrite H. reflexivity. }
  injection Hs as Hs. exact Hs.
Qed.

Lemma interpret_unknown (z : Z) :
  ~ In z [0; 1; 2; 3; 4; 240] ->
  _interpret_ac_source (PInt z) = ("Unknown (" ++ str_of_Z z ++ ")")%string.
Proof.
  intros H. unfold _interpret_ac_source, py_eq_int. cbn in *.
  destruct (Z.eqb_spec z 0); [lia|].
  destruct (Z.eqb_spec z 1); [lia|].
  destruct (Z.eqb_spec z 2); [lia|].
  destruct (Z.eqb_spec z 3); [lia|].
  destruct (Z.eqb_spec z 4); [lia|].
  destruct (Z.eqb_spec z 240); [lia|]. reflexivity.
Qed.

Lemma interpret_cases (z : Z) :
  In z [0; 1; 2; 3; 4; 240] \/ ~ In z [0; 1; 2; 3; 4; 240].
Proof. cbn. lia. Qed.

Lemma relay_command_int (z : Z) :
  relay_command (PInt z) = if (z =? 1) || (z =? 3) || (z =? 4) then 1 else 0.
Proof.
  destruct (interpret_cases z) as [H|H].
  - cbn in H. repeat (destruct H as [<-|H]; [reflexivity|]). destruct H.
  - unfold relay_command. rewrite (interpret_unknown z H). cbn in H.
    destruct (Z.eqb_spec z 1); [lia|].
    destruct (Z.eqb_spec z 3); [lia|].
    destruct (Z.eqb_spec z 4); [lia|]. reflexivity.
Qed.

(** C8: the classifier is a function of the code alone (it takes neither
    the bus nor the controller): 0 is Unavailable, 1 is Grid, 2 is Generator,
    3 and 4 are Shore, 240 is Inverting; every other integer [z] is
    classified Unknown, the label carries [z] (no other code has that label),
    and the relay command derived from it is off. *)
Theorem interpret_ac_source_table (z : Z)
    (Hother : ~ In z [0; 1; 2; 3; 4; 240]) :
  _interpret_ac_source (PInt 0) = "Unavailable"
  /\ _interpret_ac_source (PInt 1) = "Grid"
  /\ _interpret_ac_source (PInt 2) = "Generator"
  /\ _interpret_ac_source (PInt 3) = "Shore"
  /\ _interpret_ac_source (PInt 4) = "Shore"
  /\ _interpret_ac_source (PInt 240) = "Inverting"
  /\ _interpret_ac_source (PInt z) = ("Unknown (" ++ str_of_Z z ++ ")")%string
  /\ (forall z', _interpret_ac_source (PInt z') = _interpret_ac_source (PInt z)
                 -> z' = z)
  /\ relay_command (PInt z) = 0.
Proof.
  repeat (split; [reflexivity|]).
  split; [apply interpret_unknown, Hother|]. split.
  - intros z' H. rewrite (interpret_unknown z Hother) in H.
    destruct (interpret_cases z') as [K|K].
    + cbn in K.
      repeat (destruct K as [<-|K]; [discriminate H|]). destruct K.
    + rewrite (interpret_unknown z' K) in H. injection H as H.
      apply str_of_Z_inj, append_closing_inj, H.
  - rewrite relay_command_int. cbn in Hother.
    destruct (Z.eqb_spec z 1); [lia|].
    destruct (Z.eqb_spec z 3); [lia|].
    destruct (Z.eqb_spec z 4); [lia|]. reflexivity.
Qed.

Lemma interpret_ac_source_table_witness :
  ~ In 7 [0; 1; 2; 3; 4; 240]
  /\ _interpret_ac_source (PInt 7) = "Unknown (7)"
  /\ relay_command (PInt 7) = 0.
Proof.
  assert (H : ~ In 7 [0; 1; 2; 3; 4; 240]) by (cbn; lia).
  split; [exact H|].
  pose proof (interpret_ac_source_table 7 H) as T.
  split; [apply T|apply T].
Defined.

(** C3: for an integer source code [z], the value both the initial state
    setter and the monitor write to the relay is 1 (on) exactly when [z] is
    1, 3 or 4, that is when it is classified Grid or Shore, and 0 (off) for
    every other code. *)
Theorem relay_on_iff_grid_or_shore (bus : Bus) (n : nat) (z : Z)
    (Hsrc : ac_source bus = Some (PInt z)) :
  (relay_command (PInt z) = 1 <-> z = 1 \/ z = 3 \/ z = 4)
  /\ (relay_command (PInt z) = 0 <-> ~ (z = 1 \/ z = 3 \/ z = 4))
  /\ (z = 1 \/ z = 3 \/ z = 4
      <-> _interpret_ac_source (PInt z) = "Grid"
          \/ _interpret_ac_source (PInt z) = "Shore")
  /\ (forall c,
         water_heater_relay_number c = Some n ->
         initial_state_set c = false ->
         relay_writes (events (_initialize_monitoring bus c))
         = [(relay_state_path n, relay_command (PInt z))])
  /\ (forall c,
         water_heater_relay_number c = Some n ->
         initial_state_set c = true ->
         py_eqb (Some (PInt z)) (previous_ac_source c) = false ->
         relay_writes (events (_monitor_ac_input_source bus c))
         = [(relay_state_path n, relay_command (PInt z))]).
Proof.
  assert (Hc := relay_command_int z).
  repeat split.
  - rewrite Hc.
    destruct (Z.eqb_spec z 1), (Z.eqb_spec z 3), (Z.eqb_spec z 4); cbn; lia.
  - rewrite Hc.
    destruct (Z.eqb_spec z 1), (Z.eqb_spec z 3), (Z.eqb_spec z 4); cbn; lia.
  - rewrite Hc.
    destruct (Z.eqb_spec z 1), (Z.eqb_spec z 3), (Z.eqb_spec z 4); cbn; lia.
  - rewrite Hc.
    destruct (Z.eqb_spec z 1), (Z.eqb_spec z 3), (Z.eqb_spec z 4); cbn; lia.
  - intros [->| [->| ->]]; [left|right|right]; reflexivity.
  - destruct (interpret_cases z) as [K|K].
    + cbn in K. repeat (destruct K as [<-|K]; [cbn; intuition (lia || discriminate)|]).
      destruct K.
    + rewrite (interpret_unknown z K). cbn. intuition discriminate.
  - intros c Hr Hs. rewrite (initializer_readable bus c n (PInt z) Hs Hr Hsrc).
    cbn [events]. rewrite !flat_map_app, relay_writes_read, relay_writes_write.
    destruct (_ac_source_unavailable_warning_logged c); reflexivity.
  - intros c Hr Hs Hp. rewrite (monitor_readable bus c n (PInt z) Hs Hr Hsrc).
    cbn [events]. rewrite Hp.
    rewrite !flat_map_app, relay_writes_read. cbn [flat_map relay_write app].
    rewrite relay_writes_write.
    destruct (_ac_source_unavailable_warning_logged c); reflexivity.
Qed.

Lemma relay_on_iff_grid_or_shore_witness :
  ac_source (sample_bus boat_labels (Some 3) true) = Some (PInt 3)
  /\ relay_writes
       (events (_initialize_monitoring (sample_bus boat_labels (Some 3) true)
                  (mkController (Some 1%nat) None false true false)))
     = [("/Relay/1/State", 1)]
  /\ relay_writes
       (events (_monitor_ac_input_source (sample_bus boat_labels (Some 3) true)
                  (mkController (Some 1%nat) (Some (PInt 2)) true true false)))
     = [("/Relay/1/State", 1)].
Proof.
  assert (H : ac_source (sample_bus boat_labels (Some 3) true) = Some (PInt 3))
    by reflexivity.
  split; [exact H|].
  destruct (relay_on_iff_grid_or_shore _ 1%nat 3 H) as (_ & _ & _ & Hi & Hm).
  split.
  - exact (Hi (mkController (Some 1%nat) None false true false)
              eq_refl eq_refl).
  - exact (Hm (mkController (Some 1%nat) (Some (PInt 2)) true true false)
              eq_refl eq_refl eq_refl).
Defined.

(** ** Writes follow value changes *)

Lemma run_unlocated (schedule : list (nat * Bus)) (st : Stage) :
  water_heater_relay_number (controller (fst (run schedule (system_of st))))
  = None ->
  source_steps (snd (run schedule (system_of st))) = [].
Proof.
  revert st. induction schedule as [|[i bus] rest IH]; intros st H;
    [reflexivity|].
  rewrite run_cons in *. cbn [fst snd] in *. destruct i as [|i].
  - rewrite dispatch_fire in *. cbn [fst snd] in *.
    rewrite flat_map_app, (IH _ H), app_nil_r.
    destruct st as [|n w|n p w].
    + apply tick_quiet_searching.
    + exfalso. destruct (run_stage rest (next_stage bus (Starting n w)))
        as (st' & E & Hr). rewrite E in H.
      rewrite (proj1 (controller_of_stage st')) in H.
      rewrite (Hr n) in H; [discriminate|].
      cbn. destruct (ac_source bus); reflexivity.
    + exfalso. destruct (run_stage rest (next_stage bus (Watching n p w)))
        as (st' & E & Hr). rewrite E in H.
      rewrite (proj1 (controller_of_stage st')) in H.
      rewrite (Hr n) in H; [discriminate|].
      cbn. destruct (ac_source bus); reflexivity.
  - rewrite dispatch_idle in *. cbn [fst snd app] in *. apply IH, H.
Qed.

Lemma run_relay_located (schedule : list (nat * Bus)) (st : Stage) :
  water_heater_relay_number (controller (fst (run schedule (system_of st))))
  = match stage_relay st with
    | Some n => Some n
    | None => located_slot schedule
    end.
Proof.
  revert st. induction schedule as [|[i bus] rest IH]; intros st.
  - cbn [run fst located_slot]. rewrite (proj1 (controller_of_stage st)).
    destruct (stage_relay st); reflexivity.
  - rewrite run_cons. cbn [fst located_slot]. destruct i as [|i].
    + rewrite dispatch_fire. cbn [fst]. rewrite IH. unfold first_match.
      destruct st as [|n w|n p w]; cbn [next_stage stage_relay].
      * destruct (find _ _); reflexivity.
      * destruct (ac_source bus); reflexivity.
      * destruct (ac_source bus); reflexivity.
    + rewrite dispatch_idle. cbn [fst]. apply IH.
Qed.

Lemma run_readings_offered (schedule : list (nat * Bus)) (st : Stage) :
  readings (snd (run schedule (system_of st)))
  = successes (source_offered (negb (is_none (stage_relay st))) schedule).
Proof.
  revert st. induction schedule as [|[i bus] rest IH]; intros st;
    [reflexivity|].
  rewrite run_cons. cbn [fst snd source_offered]. destruct i as [|i].
  - rewrite dispatch_fire. cbn [fst snd].
    rewrite flat_map_app, tick_readings, IH. unfold first_match.
    destruct st as [|n w|n p w];
      cbn [next_stage stage_relay tick_reading is_none negb app].
    + destruct (find _ _); reflexivity.
    + unfold successes. cbn [flat_map].
      destruct (ac_source bus); reflexivity.
    + unfold successes. cbn [flat_map].
      destruct (ac_source bus); reflexivity.
  - rewrite dispatch_idle. cbn [fst snd app]. apply IH.
Qed.

(** C1: in every run of the main loop, over any firing order and any bus
    behaviour, the program reads the AC source at every firing that follows
    the locating of the relay, and the values the bus gives there are
    followed by relay writes as the value-change policy says: the first
    value is followed by one write, and each later value by a write exactly
    when it differs from the value given before it (so 1 then 3 writes
    again, a repeated value does not); firings at which the source cannot be
    read change nothing.  The same holds firing by firing: on any bus, the
    next firing reads the value the bus holds, writes exactly when that
    value differs from the recorded one, and records it. *)
Theorem writes_follow_value_changes (schedule : list (nat * Bus))
    (bus : Bus) :
  let s := fst (run schedule boot) in
  let tr := snd (run schedule boot) in
  water_heater_relay_number (controller s) = located_slot schedule
  /\ readings tr = successes (source_offered false schedule)
  /\ match located_slot schedule with
     | Some n =>
         source_steps tr
         = expected_steps (relay_state_path n) None
             (successes (source_offered false schedule))
         /\ source_steps (snd (dispatch 0 bus s))
            = expected_steps (relay_state_path n)
                (previous_ac_source (controller s))
                (successes [ac_source bus])
         /\ previous_ac_source (controller (fst (dispatch 0 bus s)))
            = match ac_source bus with
              | Some v => Some v
              | None => previous_ac_source (controller s)
              end
     | None => source_steps tr = []
     end.
Proof.
  cbn zeta.
  assert (Hrelay := run_relay_located schedule Searching).
  assert (Hread := run_readings_offered schedule Searching).
  change (system_of Searching) with boot in *.
  cbn [stage_relay is_none negb] in *.
  split; [exact Hrelay|]. split; [exact Hread|].
  destruct (located_slot schedule) as [n|].
  - split; [|split].
    + rewrite <- Hread.
      apply (run_source_steps schedule Searching (relay_state_path n)).
      intros m Hm. change (system_of Searching) with boot in Hm. congruence.
    + destruct (run_stage schedule Searching) as (st & E & _).
      change (system_of Searching) with boot in E. rewrite E in *.
      rewrite (proj1 (controller_of_stage st)) in Hrelay.
      rewrite (proj1 (proj2 (controller_of_stage st))).
      rewrite dispatch_fire. cbn [snd].
      rewrite (tick_source_steps bus st (relay_state_path n))
        by (intros m Hm; congruence).
      destruct st; [discriminate|..]; cbn [tick_reading successes flat_map];
        destruct (ac_source bus); reflexivity.
    + destruct (run_stage schedule Searching) as (st & E & _).
      change (system_of Searching) with boot in E. rewrite E in *.
      rewrite (proj1 (controller_of_stage st)) in Hrelay.
      rewrite dispatch_fire. cbn [fst].
      rewrite !(proj1 (proj2 (controller_of_stage _))), tick_previous.
      destruct st; [discriminate|..]; reflexivity.
  - apply (run_unlocated schedule Searching). exact Hrelay.
Qed.

(** The scenario of the specification: readings 1, 1, 3, 3, 0. *)
Example scenario_1_1_3_3_0 :
  let bus z := sample_bus boat_labels (Some z) true in
  source_steps
    (snd (run [(0%nat, bus 1); (0%nat, bus 1); (0%nat, bus 1); (0%nat, bus 3);
               (0%nat, bus 3); (0%nat, bus 0)] boot))
  = [SRead (PInt 1); SWrite "/Relay/1/State" 1; SRead (PInt 1);
     SRead (PInt 3); SWrite "/Relay/1/State" 1; SRead (PInt 3);
     SRead (PInt 0); SWrite "/Relay/1/State" 0].
Proof. vm_compute. reflexivity. Qed.

(** What the bus offers in that scenario: the first firing is the
    locator's, the five that follow read 1, 1, 3, 3, 0. *)
Example scenario_offered :
  let bus z := sample_bus boat_labels (Some z) true in
  let schedule := [(0%nat, bus 1); (0%nat, bus 1); (0%nat, bus 1);
                   (0%nat, bus 3); (0%nat, bus 3); (0%nat, bus 0)] in
  located_slot schedule = Some 1%nat
  /\ source_offered false schedule
     = [Some (PInt 1); Some (PInt 1); Some (PInt 3); Some (PInt 3);
        Some (PInt 0)].
Proof. vm_compute. split; reflexivity. Qed.

(** ** Unavailability episodes *)

Lemma run_outcomes_offered (schedule : list (nat * Bus)) (st : Stage) :
  ac_outcomes (snd (run schedule (system_of st)))
  = map readable
        (source_offered (negb (is_none (stage_relay st))) schedule).
Proof.
  revert st. induction schedule as [|[i bus] rest IH]; intros st;
    [reflexivity|].
  rewrite run_cons. cbn [fst snd source_offered]. destruct i as [|i].
  - rewrite dispatch_fire. cbn [fst snd].
    rewrite flat_map_app, tick_ac_outcomes, IH. unfold first_match.
    destruct st as [|n w|n p w];
      cbn [next_stage stage_relay is_none negb app map].
    + destruct (find _ _); reflexivity.
    + destruct (ac_source bus); reflexivity.
    + destruct (ac_source bus); reflexivity.
  - rewrite dispatch_idle. cbn [fst snd app]. apply IH.
Qed.

Lemma source_offered_unlocated (schedule : list (nat * Bus)) :
  located_slot schedule = None -> source_offered false schedule = [].
Proof.
  induction schedule as [|[[|i] bus] rest IH]; cbn [located_slot source_offered];
    [reflexivity| |exact IH].
  destruct (first_match bus); [discriminate|exact IH].
Qed.

(** C4: in every run the program reads the AC source at every firing that
    follows the locating of the relay, in the initial state setter and in
    the monitor alike, and the notices follow what the bus gives there as
    the episode discipline says: the unreadable firing that opens an episode
    is followed by one warning, the further unreadable firings of the
    episode by none, and the first readable firing after the episode by
    exactly one recovery note, however long the episode was.  The same holds
    firing by firing: on any bus the next firing warns exactly when the
    source is unreadable and the flag is clear, notes the recovery exactly
    when it is readable and the flag is set, and leaves the flag telling
    whether the source was unreadable. *)
Theorem one_warning_one_recovery_per_episode (schedule : list (nat * Bus))
    (bus : Bus) :
  let s := fst (run schedule boot) in
  let tr := snd (run schedule boot) in
  ac_outcomes tr = map readable (source_offered false schedule)
  /\ notices tr
     = expected_notices true (map readable (source_offered false schedule))
  /\ match located_slot schedule with
     | Some _ =>
         notices (snd (dispatch 0 bus s))
         = expected_notices
             (negb (_ac_source_unavailable_warning_logged (controller s)))
             [readable (ac_source bus)]
         /\ _ac_source_unavailable_warning_logged
              (controller (fst (dispatch 0 bus s)))
            = is_none (ac_source bus)
     | None => notices tr = []
     end.
Proof.
  cbn zeta.
  assert (Hrelay := run_relay_located schedule Searching).
  assert (Hout := run_outcomes_offered schedule Searching).
  assert (Hnot := run_notices schedule Searching).
  change (system_of Searching) with boot in *.
  cbn [stage_relay stage_warned is_none negb] in *.
  split; [exact Hout|]. split; [rewrite <- Hout; exact Hnot|].
  destruct (run_stage schedule Searching) as (st & E & _).
  change (system_of Searching) with boot in E. rewrite E in *.
  rewrite (proj1 (controller_of_stage st)) in Hrelay.
  destruct (located_slot schedule) as [n|] eqn:Hloc.
  - rewrite dispatch_fire. cbn [fst snd].
    rewrite !(proj2 (proj2 (controller_of_stage _))).
    rewrite tick_notices, tick_ac_outcomes, tick_warned.
    destruct st; [discriminate|..]; split; reflexivity.
  - rewrite Hnot, Hout, (source_offered_unlocated schedule Hloc).
    reflexivity.
Qed.

Example episode_of_three_failed_reads :
  let up := sample_bus boat_labels (Some 1) true in
  let down := sample_bus boat_labels None true in
  notices
    (snd (run [(0%nat, up); (0%nat, down); (0%nat, down); (0%nat, up);
               (0%nat, down); (0%nat, down); (0%nat, down); (0%nat, up)] boot))
  = [NUnreadable; NWarning; NUnreadable; NReadable; NRecovery;
     NUnreadable; NWarning; NUnreadable; NUnreadable; NReadable; NRecovery].
Proof. vm_compute. reflexivity. Qed.

(** ** Frame conditions of the monitor *)

(** C5: a monitor tick whose source read fails issues no relay write, leaves
    the recorded previous value, the initial-state flag and the located relay
    as they were (the warning flag is the only field that may change), keeps
    its timer and registers no other. *)
Theorem monitor_failed_read_frame (bus : Bus) (c : Controller)
    (Hfail : ac_source bus = None) :
  let r := _monitor_ac_input_source bus c in
  retval r = true
  /\ relay_writes (events r) = []
  /\ registered (events r) = []
  /\ (ctl_after r = c \/ ctl_after r = set_warning_logged true c)
  /\ previous_ac_source (ctl_after r) = previous_ac_source c
  /\ initial_state_set (ctl_after r) = initial_state_set c
  /\ water_heater_relay_number (ctl_after r) = water_heater_relay_number c
  /\ forall i ts,
       nth_error ts i = Some Monitor ->
       fst (dispatch i bus (mkSystem c ts)) = mkSystem (ctl_after r) ts.
Proof.
  cbn zeta.
  assert (H : retval (_monitor_ac_input_source bus c) = true
              /\ relay_writes (events (_monitor_ac_input_source bus c)) = []
              /\ registered (events (_monitor_ac_input_source bus c)) = []
              /\ (ctl_after (_monitor_ac_input_source bus c) = c
                  \/ ctl_after (_monitor_ac_input_source bus c)
                     = set_warning_logged true c)).
  { destruct (initial_state_set c) eqn:Hs;
      [destruct (water_heater_relay_number c) as [n|] eqn:Hr|].
    - rewrite (monitor_unreadable bus c n Hs Hr Hfail).
      cbn [retval ctl_after events]. unfold registered.
      rewrite !flat_map_app, relay_writes_read.
      fold (registered (read_events bus SYSTEM_SERVICE AC_ACTIVE_INPUT_SOURCE_PATH)).
      rewrite registered_read.
      repeat split;
        try (destruct (_ac_source_unavailable_warning_logged c); reflexivity).
      right. unfold set_warning_logged. rewrite Hs, Hr. reflexivity.
    - rewrite (monitor_guard bus c) by (right; exact Hr).
      repeat split. left. reflexivity.
    - rewrite (monitor_guard bus c) by (left; exact Hs).
      repeat split. left. reflexivity. }
  destruct H as (Hret & Hw & Hreg & Hctl).
  repeat split; try assumption;
    try (destruct Hctl as [-> | ->]; reflexivity).
  intros i ts Hi. unfold dispatch. cbn [timers controller run_callback].
  rewrite Hi. cbn [fst run_callback]. rewrite Hret, Hreg, app_nil_r.
  reflexivity.
Qed.

Lemma monitor_failed_read_frame_witness :
  ac_source (sample_bus boat_labels None true) = None
  /\ _monitor_ac_input_source (sample_bus boat_labels None true)
       (mkController (Some 1%nat) (Some (PInt 1)) true true false)
     = mkOutcome true
         (mkController (Some 1%nat) (Some (PInt 1)) true true true)
         [ERead SYSTEM_SERVICE AC_ACTIVE_INPUT_SOURCE_PATH None;
          ELog WARNING MsgMonitorUnavailable]
  /\ relay_writes
       (events (_monitor_ac_input_source (sample_bus boat_labels None true)
                  (mkController (Some 1%nat) (Some (PInt 1)) true true false)))
     = [].
Proof.
  assert (H : ac_source (sample_bus boat_labels None true) = None)
    by reflexivity.
  split; [exact H|]. split; [reflexivity|].
  apply (monitor_failed_read_frame _
           (mkController (Some 1%nat) (Some (PInt 1)) true true false) H).
Defined.

(** C6: a monitor tick that reads a value different from the recorded one
    records the new value whether or not the relay write went through: the
    write is issued with whatever result the bus gives, and the baseline
    moves to the value just read. *)
Theorem monitor_baseline_advances (bus : Bus) (c : Controller) (n : nat)
    (v : PyVal)
    (Hset : initial_state_set c = true)
    (Hrelay : water_heater_relay_number c = Some n)
    (Hsrc : ac_source bus = Some v)
    (Hchanged : py_eqb (Some v) (previous_ac_source c) = false) :
  let r := _monitor_ac_input_source bus c in
  previous_ac_source (ctl_after r) = Some v
  /\ In (EWrite SYSTEM_SERVICE (relay_state_path n) (relay_command v)
           (write_ok bus n (relay_command v)))
        (events r)
  /\ relay_writes (events r) = [(relay_state_path n, relay_command v)]
  /\ retval r = true.
Proof.
  cbn zeta. rewrite (monitor_readable bus c n v Hset Hrelay Hsrc).
  cbn [retval ctl_after events previous_ac_source]. rewrite Hchanged.
  repeat split.
  - apply in_or_app. right. apply in_or_app. right. right.
    unfold write_events. left. reflexivity.
  - rewrite !flat_map_app, relay_writes_read. cbn [flat_map relay_write app].
    rewrite relay_writes_write.
    destruct (_ac_source_unavailable_warning_logged c); reflexivity.
Qed.

Lemma monitor_baseline_advances_witness :
  let bus := sample_bus boat_labels (Some 0) false in
  let c := mkController (Some 1%nat) (Some (PInt 1)) true true false in
  write_ok bus 1 (relay_command (PInt 0)) = false
  /\ writes_done (events (_monitor_ac_input_source bus c)) = []
  /\ previous_ac_source (ctl_after (_monitor_ac_input_source bus c))
     = Some (PInt 0).
Proof.
  cbn zeta. split; [reflexivity|]. split; [reflexivity|].
  apply (monitor_baseline_advances (sample_bus boat_labels (Some 0) false)
           (mkController (Some 1%nat) (Some (PInt 1)) true true false)
           1%nat (PInt 0) eq_refl eq_refl eq_refl eq_refl).
Defined.

(** ** Guards *)

(** C10: an initial state setter tick that finds no located relay, or the
    initial state already set, reads and writes nothing, leaves the
    controller as it was and returns [False], so that its timer is removed;
    the monitor's guard (initial state not set, or no relay) also does
    nothing but returns [True], so that its timer stays. *)
Theorem initializer_guard_disarms (bus : Bus) (c : Controller)
    (Hguard : water_heater_relay_number c = None
              \/ initial_state_set c = true) :
  _initialize_monitoring bus c = mkOutcome false c []
  /\ (forall i ts,
         nth_error ts i = Some Initializer ->
         dispatch i bus (mkSystem c ts)
         = (mkSystem c (remove_nth i ts), []))
  /\ (forall c',
         water_heater_relay_number c' = None
         \/ initial_state_set c' = false ->
         _monitor_ac_input_source bus c' = mkOutcome true c' []
         /\ forall i ts,
              nth_error ts i = Some Monitor ->
              dispatch i bus (mkSystem c' ts) = (mkSystem c' ts, [])).
Proof.
  assert (Hi : _initialize_monitoring bus c = mkOutcome false c [])
    by (apply initializer_guard; tauto).
  split; [exact Hi|]. split.
  - intros i ts Ht. unfold dispatch. cbn [timers controller]. rewrite Ht.
    cbn [run_callback]. rewrite Hi. cbn. rewrite app_nil_r. reflexivity.
  - intros c' Hg.
    assert (Hm : _monitor_ac_input_source bus c' = mkOutcome true c' [])
      by (apply monitor_guard; tauto).
    split; [exact Hm|].
    intros i ts Ht. unfold dispatch. cbn [timers controller]. rewrite Ht.
    cbn [run_callback]. rewrite Hm. cbn. rewrite app_nil_r. reflexivity.
Qed.

Lemma initializer_guard_disarms_witness :
  let bus := sample_bus boat_labels (Some 1) true in
  (water_heater_relay_number init_controller = None
   \/ initial_state_set init_controller = true)
  /\ dispatch 0 bus (mkSystem init_controller [Initializer])
     = (mkSystem init_controller [], [])
  /\ dispatch 0 bus (mkSystem init_controller [Monitor])
     = (mkSystem init_controller [Monitor], []).
Proof.
  cbn zeta.
  assert (H : water_heater_relay_number init_controller = None
              \/ initial_state_set init_controller = true)
    by (left; reflexivity).
  split; [exact H|].
  destruct (initializer_guard_disarms (sample_bus boat_labels (Some 1) true)
              init_controller H) as (_ & Hd & Hm).
  split.
  - exact (Hd 0%nat [Initializer] eq_refl).
  - exact (proj2 (Hm init_controller (or_introl eq_refl))
             0%nat [Monitor] eq_refl).
Defined.

(** ** The invariant of the controller *)

Lemma callback_keeps_relay (cb : Callback) (bus : Bus) (c : Controller) :
  (initial_state_set c = true -> water_heater_relay_number c <> None) ->
  initial_state_set (ctl_after (run_callback cb bus c)) = true ->
  water_heater_relay_number (ctl_after (run_callback cb bus c)) <> None.
Proof.
  intros Inv. destruct cb; cbn [run_callback].
  - destruct (relay_found c) eqn:Hf.
    + rewrite (locator_guard bus c Hf). exact Inv.
    + rewrite (locator_scan bus c Hf).
      destruct (find _ _); [discriminate|exact Inv].
  - destruct (initial_state_set c) eqn:Hs;
      [|destruct (water_heater_relay_number c) as [n|] eqn:Hr].
    + rewrite (initializer_guard bus c) by (left; exact Hs).
      cbn. rewrite Hs. exact Inv.
    + destruct (ac_source bus) as [v|] eqn:Hv.
      * rewrite (initializer_readable bus c n v Hs Hr Hv). discriminate.
      * rewrite (initializer_unreadable bus c n Hs Hr Hv). discriminate.
    + rewrite (initializer_guard bus c) by (right; exact Hr).
      cbn. rewrite Hs. discriminate.
  - destruct (initial_state_set c) eqn:Hs;
      [destruct (water_heater_relay_number c) as [n|] eqn:Hr|].
    + destruct (ac_source bus) as [v|] eqn:Hv.
      * rewrite (monitor_readable bus c n v Hs Hr Hv). discriminate.
      * rewrite (monitor_unreadable bus c n Hs Hr Hv). discriminate.
    + exfalso. apply Inv; reflexivity.
    + rewrite (monitor_guard bus c) by (left; exact Hs).
      cbn. rewrite Hs. discriminate.
Qed.

Lemma invoke_all_keeps_relay (calls : list (Callback * Bus)) (c : Controller) :
  (initial_state_set c = true -> water_heater_relay_number c <> None) ->
  initial_state_set (invoke_all calls c) = true ->
  water_heater_relay_number (invoke_all calls c) <> None.
Proof.
  revert c. induction calls as [|[cb bus] rest IH]; intros c Inv;
    [exact Inv|].
  cbn [invoke_all]. apply IH. apply callback_keeps_relay, Inv.
Qed.

(** C9: whatever callbacks are invoked on the freshly constructed
    controller, in whatever order and against whatever bus, once the initial
    state is marked as set a relay has been located. *)
Theorem initial_state_set_implies_relay_located
    (calls : list (Callback * Bus))
    (Hset : initial_state_set (invoke_all calls init_controller) = true) :
  water_heater_relay_number (invoke_all calls init_controller) <> None.
Proof.
  apply invoke_all_keeps_relay; [discriminate|exact Hset].
Qed.

Lemma initial_state_set_implies_relay_located_witness :
  let bus := sample_bus boat_labels (Some 1) true in
  let calls := [(Monitor, bus); (Initializer, bus); (Locator, bus);
                (Initializer, bus); (Locator, bus)] in
  initial_state_set (invoke_all calls init_controller) = true
  /\ water_heater_relay_number (invoke_all calls init_controller) <> None.
Proof.
  cbn zeta. split; [reflexivity|].
  apply initial_state_set_implies_relay_located. reflexivity.
Defined.

(** The same holds along every run of the main loop. *)
Lemma run_initial_state_set (schedule : list (nat * Bus)) :
  initial_state_set (controller (fst (run schedule boot))) = true ->
  water_heater_relay_number (controller (fst (run schedule boot))) <> None.
Proof.
  destruct (run_stage schedule Searching) as (st & E & _).
  change (system_of Searching) with boot in E. rewrite E.
  destruct st; cbn; discriminate.
Qed.

(** ** Hand-off from the initial state setter *)

(** C2 as stated fails: with the source readable and the relay write
    failing, the initial state setter records the value, marks the initial
    state as set, registers the monitor and stops, although no write went
    through. *)
Lemma initializer_stops_after_failed_write :
  let bus := sample_bus boat_labels (Some 1) false in
  let s := fst (run [(0%nat, bus)] boot) in
  let s' := fst (dispatch 0 bus s) in
  let tr := (snd (run [(0%nat, bus)] boot) ++ snd (dispatch 0 bus s))%list in
  timers s = [Initializer]
  /\ timers s' = [Monitor]
  /\ initial_state_set (controller s') = true
  /\ previous_ac_source (controller s') = Some (PInt 1)
  /\ relay_writes tr = [("/Relay/1/State", 1)]
  /\ writes_done tr = [].
Proof. vm_compute. repeat split. Qed.

(** C2, amended: while the initial state setter's timer is registered no
    value is recorded, the initial state is not set and nothing has been
    written.  A tick that cannot read the source keeps the timer and changes
    none of that; a tick that reads a value issues exactly one relay write
    (with whatever result), records the value, marks the initial state as
    set, registers the monitor and removes its own timer.  In every run a
    recorded previous value means that the initial state is set and that a
    write has been issued. *)
Theorem initializer_retries_until_readable (schedule : list (nat * Bus))
    (bus : Bus)
    (Harmed : timers (fst (run schedule boot)) = [Initializer]) :
  let s := fst (run schedule boot) in
  let s' := fst (dispatch 0 bus s) in
  let e := snd (dispatch 0 bus s) in
  (exists n,
      water_heater_relay_number (controller s) = Some n
      /\ previous_ac_source (controller s) = None
      /\ initial_state_set (controller s) = false
      /\ relay_writes (snd (run schedule boot)) = []
      /\ match ac_source bus with
         | None =>
             timers s' = [Initializer]
             /\ previous_ac_source (controller s') = None
             /\ initial_state_set (controller s') = false
             /\ relay_writes e = []
         | Some v =>
             timers s' = [Monitor]
             /\ previous_ac_source (controller s') = Some v
             /\ initial_state_set (controller s') = true
             /\ relay_writes e = [(relay_state_path n, relay_command v)]
         end)
  /\ (forall schedule',
         previous_ac_source (controller (fst (run schedule' boot))) <> None ->
         initial_state_set (controller (fst (run schedule' boot))) = true
         /\ relay_writes (snd (run schedule' boot)) <> []).
Proof.
  cbn zeta. split.
  - assert (Hw := run_written schedule Searching eq_refl).
    destruct (run_stage schedule Searching) as (st & E & _).
    change (system_of Searching) with boot in *. rewrite E in *.
    destruct st as [|n w|n p w]; try discriminate Harmed.
    exists n. rewrite dispatch_fire. cbn [fst snd].
    rewrite tick_relay_writes.
    repeat (split; [reflexivity|]).
    split; [apply Hw; reflexivity|].
    cbn [next_stage]. destruct (ac_source bus); repeat split.
  - intros schedule' Hp.
    assert (Hw := run_written schedule' Searching eq_refl).
    destruct (run_stage schedule' Searching) as (st & E & _).
    change (system_of Searching) with boot in *. rewrite E in *.
    split.
    + destruct st; cbn in *; congruence.
    + intros Hn. apply Hp, Hw, Hn.
Qed.

Lemma initializer_retries_until_readable_witness :
  let up := sample_bus boat_labels (Some 1) false in
  let down := sample_bus boat_labels None false in
  let s := fst (run [(0%nat, down); (0%nat, down)] boot) in
  timers s = [Initializer]
  /\ timers (fst (dispatch 0 down s)) = [Initializer]
  /\ timers (fst (dispatch 0 up s)) = [Monitor]
  /\ relay_writes (snd (dispatch 0 up s)) = [("/Relay/1/State", 1)].
Proof.
  cbn zeta.
  assert (H : timers (fst (run [(0%nat, sample_bus boat_labels None false);
                                (0%nat, sample_bus boat_labels None false)]
                             boot)) = [Initializer]) by reflexivity.
  split; [exact H|].
  destruct (initializer_retries_until_readable _
              (sample_bus boat_labels None false) H)
    as ((n & _ & _ & _ & _ & Hd) & _).
  destruct (initializer_retries_until_readable _
              (sample_bus boat_labels (Some 1) false) H)
    as ((m & Hm & _ & _ & _ & Hu) & _).
  split; [apply Hd|]. split; [apply Hu|].
  change (Some 1%nat = Some m) in Hm. injection Hm as <-. apply Hu.
Defined.

(** ** The locator's scan *)

Lemma registry_reads_read (bus : Bus) (s p : string) :
  registry_reads (read_events bus s p) = [(s, p, read_value bus s p)].
Proof.
  unfold read_events, read_value.
  destruct (bus s p) as [[[g|] ?]|]; reflexivity.
Qed.

Lemma log_records_read (bus : Bus) (s p : string) :
  log_records (read_events bus s p) = read_error_log bus s p.
Proof.
  unfold read_events, read_error_log.
  destruct (bus s p) as [[[g|] ?]|]; reflexivity.
Qed.

Lemma registry_reads_probe (bus : Bus) (l : list nat) :
  registry_reads (probe_events bus l)
  = map (fun k => (SETTINGS_SERVICE_NAME, custom_name_path k, slot_label bus k))
        l.
Proof.
  induction l as [|k l IH]; [reflexivity|].
  unfold probe_events in *. cbn [flat_map map].
  rewrite flat_map_app, IH, registry_reads_read. reflexivity.
Qed.

Lemma log_records_probe (bus : Bus) (l : list nat) :
  log_records (probe_events bus l)
  = flat_map (fun k => read_error_log bus SETTINGS_SERVICE_NAME
                         (custom_name_path k)) l.
Proof.
  induction l as [|k l IH]; [reflexivity|].
  unfold probe_events in *. cbn [flat_map].
  rewrite flat_map_app, IH, log_records_read. reflexivity.
Qed.

Lemma slot_matches_label (bus : Bus) (k : nat) :
  slot_matches bus k = true
  <-> exists s, slot_label bus k = Some (PStr s) /\ In s TARGET_CUSTOM_NAMES.
Proof.
  unfold slot_matches, py_in, str_in.
  destruct (slot_label bus k) as [[z|s]|].
  - split; [discriminate|]. intros (s & [=] & _).
  - rewrite existsb_exists. split.
    + intros (x & Hin & Heq). apply String.eqb_eq in Heq. subst x.
      exists s. split; [reflexivity|exact Hin].
    + intros (x & [= <-] & Hin). exists s. split; [exact Hin|].
      apply String.eqb_refl.
  - split; [discriminate|]. intros (s & [=] & _).
Qed.

(** C7 as stated fails on the silence of failed reads: when the object of
    slot 0 is there but its [GetValue] raises, the label read fails, the scan
    goes on to slot 1, and an error record is logged for slot 0. *)
Lemma locator_logs_failed_label_read :
  let bus := sample_bus [None; Some "AC WH"] None false in
  let r := _find_water_heater_relay bus init_controller in
  slot_label bus 0 = None
  /\ water_heater_relay_number (ctl_after r) = Some 1%nat
  /\ In (ERROR, MsgGetError "com.victronenergy.settings"
                  "/Settings/Relay/0/CustomName")
        (log_records (events r)).
Proof. vm_compute. repeat split. right. left. reflexivity. Qed.

(** C7, amended: a scan reads the labels of slots 0, 1, 2, ... in that order
    and stops at the first slot whose label is a target name; that slot is
    recorded as the relay, later slots are not read, and the relay itself is
    never written.  A failed label read is no match and the scan goes on.
    Such a read leaves no log record when the slot's object cannot be
    obtained, and one error record when the object is there but [GetValue]
    raises.  With no matching slot all [MAX_RELAY_NUMBER_TO_CHECK] slots are
    read, the controller is unchanged and the timer stays. *)
Theorem locator_selects_first_match (bus : Bus) (c : Controller)
    (Hsearching : relay_found c = false) :
  let r := _find_water_heater_relay bus c in
  let slots := probed bus (seq 0 MAX_RELAY_NUMBER_TO_CHECK) in
  registry_reads (events r)
  = map (fun k => (SETTINGS_SERVICE_NAME, custom_name_path k, slot_label bus k))
        slots
  /\ relay_writes (events r) = []
  /\ (forall k, slot_label bus k = None -> slot_matches bus k = false)
  /\ (forall k,
         slot_matches bus k = true
         <-> exists s, slot_label bus k = Some (PStr s)
                       /\ In s TARGET_CUSTOM_NAMES)
  /\ log_records (events r)
     = ((INFO, MsgAttemptFind TARGET_CUSTOM_NAMES)
        :: flat_map (fun k => read_error_log bus SETTINGS_SERVICE_NAME
                                (custom_name_path k)) slots
        ++ [match find (slot_matches bus) (seq 0 MAX_RELAY_NUMBER_TO_CHECK) with
            | Some k => (INFO, MsgFound k)
            | None => (INFO, MsgNotFoundYet)
            end])%list
  /\ (forall k,
         bus SETTINGS_SERVICE_NAME (custom_name_path k) = None ->
         read_error_log bus SETTINGS_SERVICE_NAME (custom_name_path k) = [])
  /\ (forall k interface,
         bus SETTINGS_SERVICE_NAME (custom_name_path k) = Some interface ->
         GetValue interface = None ->
         read_error_log bus SETTINGS_SERVICE_NAME (custom_name_path k)
         = [(ERROR, MsgGetError SETTINGS_SERVICE_NAME (custom_name_path k))])
  /\ match find (slot_matches bus) (seq 0 MAX_RELAY_NUMBER_TO_CHECK) with
     | Some k =>
         (k < MAX_RELAY_NUMBER_TO_CHECK)%nat
         /\ slot_matches bus k = true
         /\ (forall j, (j < k)%nat -> slot_matches bus j = false)
         /\ slots = seq 0 (S k)
         /\ ctl_after r = located k c
         /\ retval r = false
         /\ registered (events r) = [Initializer]
     | None =>
         (forall j, (j < MAX_RELAY_NUMBER_TO_CHECK)%nat ->
                    slot_matches bus j = false)
         /\ slots = seq 0 MAX_RELAY_NUMBER_TO_CHECK
         /\ ctl_after r = c
         /\ retval r = true
         /\ registered (events r) = []
     end.
Proof.
  cbn zeta. rewrite (locator_scan bus c Hsearching).
  destruct (probe_events_quiet bus
              (probed bus (seq 0 MAX_RELAY_NUMBER_TO_CHECK)))
    as (Hreg & _ & _ & _ & _ & Hwr).
  assert (Hreads :
    forall tail, registry_reads tail = [] ->
      registry_reads
        (ELog INFO (MsgAttemptFind TARGET_CUSTOM_NAMES)
         :: probe_events bus (probed bus (seq 0 MAX_RELAY_NUMBER_TO_CHECK))
         ++ tail)
      = map (fun k => (SETTINGS_SERVICE_NAME, custom_name_path k,
                       slot_label bus k))
            (probed bus (seq 0 MAX_RELAY_NUMBER_TO_CHECK))).
  { intros tail Ht. cbn [flat_map registry_read app].
    rewrite flat_map_app, registry_reads_probe, Ht, app_nil_r. reflexivity. }
  assert (Hwrites :
    forall tail, relay_writes tail = [] ->
      relay_writes
        (ELog INFO (MsgAttemptFind TARGET_CUSTOM_NAMES)
         :: probe_events bus (probed bus (seq 0 MAX_RELAY_NUMBER_TO_CHECK))
         ++ tail) = []).
  { intros tail Ht. cbn [flat_map relay_write app].
    rewrite flat_map_app, Hwr, Ht. reflexivity. }
  assert (Hlogs :
    forall tail,
      log_records
        (ELog INFO (MsgAttemptFind TARGET_CUSTOM_NAMES)
         :: probe_events bus (probed bus (seq 0 MAX_RELAY_NUMBER_TO_CHECK))
         ++ tail)
      = ((INFO, MsgAttemptFind TARGET_CUSTOM_NAMES)
         :: flat_map (fun k => read_error_log bus SETTINGS_SERVICE_NAME
                                 (custom_name_path k))
              (probed bus (seq 0 MAX_RELAY_NUMBER_TO_CHECK))
         ++ log_records tail)%list).
  { intros tail. cbn [flat_map log_record app].
    rewrite flat_map_app, log_records_probe. reflexivity. }
  assert (Hregd :
    forall tail,
      registered
        (ELog INFO (MsgAttemptFind TARGET_CUSTOM_NAMES)
         :: probe_events bus (probed bus (seq 0 MAX_RELAY_NUMBER_TO_CHECK))
         ++ tail) = registered tail).
  { intros tail. unfold registered in *. cbn [flat_map app].
    rewrite flat_map_app, Hreg. reflexivity. }
  assert (Hnone : forall k, slot_label bus k = None -> slot_matches bus k = false).
  { intros k Hk. unfold slot_matches. rewrite Hk. reflexivity. }
  assert (Hsilent : forall k,
             bus SETTINGS_SERVICE_NAME (custom_name_path k) = None ->
             read_error_log bus SETTINGS_SERVICE_NAME (custom_name_path k) = []).
  { intros k Hk. unfold read_error_log. rewrite Hk. reflexivity. }
  assert (Hloud : forall k interface,
             bus SETTINGS_SERVICE_NAME (custom_name_path k) = Some interface ->
             GetValue interface = None ->
             read_error_log bus SETTINGS_SERVICE_NAME (custom_name_path k)
             = [(ERROR, MsgGetError SETTINGS_SERVICE_NAME (custom_name_path k))]).
  { intros k i Hk Hg. unfold read_error_log. rewrite Hk, Hg. reflexivity. }
  destruct (find (slot_matches bus) (seq 0 MAX_RELAY_NUMBER_TO_CHECK))
    as [k|] eqn:Hfind; cbn [retval ctl_after events].
  - destruct (probed_seq_some bus _ _ _ Hfind) as (Hk & Hm & Hlow & Hp).
    rewrite Hreads, Hwrites, Hlogs, Hregd by reflexivity.
    split; [reflexivity|]. split; [reflexivity|]. split; [exact Hnone|].
    split; [intros j; apply slot_matches_label|]. split; [reflexivity|].
    split; [exact Hsilent|]. split; [exact Hloud|].
    split; [lia|]. split; [exact Hm|].
    split; [intros j Hj; apply Hlow; lia|].
    split; [rewrite Hp, Nat.sub_0_r; reflexivity|].
    repeat split.
  - rewrite Hreads, Hwrites, Hlogs, Hregd by reflexivity.
    split; [reflexivity|]. split; [reflexivity|]. split; [exact Hnone|].
    split; [intros j; apply slot_matches_label|]. split; [reflexivity|].
    split; [exact Hsilent|]. split; [exact Hloud|].
    split; [intros j Hj; apply (find_none _ _ Hfind), in_seq; lia|].
    split; [apply probed_none, Hfind|].
    repeat split.
Qed.

Lemma locator_selects_first_match_witness :
  let bus := sample_bus [Some "Bilge"; None; Some "AC WH"; Some "AC WH"]
               None false in
  let r := _find_water_heater_relay bus init_controller in
  relay_found init_controller = false
  /\ find (slot_matches bus) (seq 0 MAX_RELAY_NUMBER_TO_CHECK) = Some 2%nat
  /\ registry_reads (events r)
     = [(SETTINGS_SERVICE_NAME, "/Settings/Relay/0/CustomName",
         Some (PStr "Bilge"));
        (SETTINGS_SERVICE_NAME, "/Settings/Relay/1/CustomName", None);
        (SETTINGS_SERVICE_NAME, "/Settings/Relay/2/CustomName",
         Some (PStr "AC WH"))]
  /\ relay_writes (events r) = [].
Proof.
  cbn zeta.
  assert (H : relay_found init_controller = false) by reflexivity.
  split; [exact H|]. split; [reflexivity|].
  destruct (locator_selects_first_match
              (sample_bus [Some "Bilge"; None; Some "AC WH"; Some "AC WH"]
                 None false) init_controller H) as (Hr & Hw & _).
  split; [exact Hr|exact Hw].
Defined.

(** * Further properties of the controller *)

(** ** Registry access helpers *)

(** X1: [_get_dbus_value] never touches the controller and makes one read.  It
    returns [None] exactly when the object cannot be obtained or [GetValue]
    raises, and logs (one error record) exactly in the second case. *)
Theorem get_dbus_value_failure_modes (service path : string) (bus : Bus)
    (c : Controller) :
  let r := _get_dbus_value service path bus c in
  ctl_after r = c
  /\ registry_reads (events r) = [(service, path, retval r)]
  /\ relay_writes (events r) = []
  /\ (retval r = None
      <-> bus service path = None
          \/ exists interface, bus service path = Some interface
                               /\ GetValue interface = None)
  /\ (log_records (events r) = [(ERROR, MsgGetError service path)]
      <-> exists interface, bus service path = Some interface
                            /\ GetValue interface = None)
  /\ (log_records (events r) = []
      <-> bus service path = None \/ retval r <> None).
Proof.
  cbn zeta. rewrite get_dbus_value_eq. cbn [retval ctl_after events].
  rewrite registry_reads_read, relay_writes_read, log_records_read.
  unfold read_value, read_error_log.
  destruct (bus service path) as [[[g|] sv]|]; cbn.
  - repeat split; try discriminate; try tauto.
    + intros [H|(i & [= <-] & H)]; discriminate.
    + intros (i & [= <-] & H). discriminate.
    + intros _. right. discriminate.
  - repeat split; try discriminate; try tauto.
    + intros _. right. eexists. split; reflexivity.
    + intros _. eexists. split; reflexivity.
    + intros [H|H]; [discriminate|tauto].
  - repeat split; try discriminate; try tauto.
    + intros (i & H & _). discriminate.
Qed.

(** X2: [_set_relay_state] never touches the controller.  It returns [True]
    exactly when the relay is given, its object is obtained and [SetValue]
    does not raise, which is exactly when a write went through; without a
    relay number it does not approach the bus at all. *)
Theorem set_relay_state_result (relay_number : option nat) (value : Z)
    (bus : Bus) (c : Controller) :
  let r := _set_relay_state relay_number value bus c in
  ctl_after r = c
  /\ (retval r = true
      <-> exists n interface,
            relay_number = Some n
            /\ bus SYSTEM_SERVICE (relay_state_path n) = Some interface
            /\ SetValue interface value = true)
  /\ (retval r = true <-> writes_done (events r) <> [])
  /\ (retval r = true
      <-> exists n, log_records (events r)
                    = [(INFO, MsgSetDone SYSTEM_SERVICE (relay_state_path n)
                                value)])
  /\ registry_reads (events r) = []
  /\ (relay_number = None -> events r = []).
Proof.
  cbn zeta. destruct relay_number as [n|].
  - rewrite set_relay_state_eq. cbn [retval ctl_after events].
    unfold write_ok, write_events, write_ok.
    destruct (bus SYSTEM_SERVICE (relay_state_path n)) as [[g sv]|] eqn:Hb;
      cbn; [destruct (sv value) eqn:Hsv|]; cbn.
    + repeat split; try discriminate; try tauto.
      * intros _. exists n, (mkProxy g sv).
        split; [reflexivity|]. split; [exact Hb|exact Hsv].
      * intros _. exists n. reflexivity.
    + repeat split; try discriminate; try tauto.
      * intros (m & i & [= <-] & Hi & H). rewrite Hb in Hi.
        injection Hi as <-. cbn in H. congruence.
      * intros (m & [=]).
    + repeat split; try discriminate; try tauto.
      * intros (m & i & [= <-] & Hi & _). rewrite Hb in Hi. discriminate.
      * intros (m & [=]).
  - change (_set_relay_state None value bus c) with (mkOutcome false c []).
    cbn. repeat split; try discriminate; try tauto.
    + intros (m & i & [=] & _).
    + intros (m & [=]).
Qed.

(** ** Invariants of a run *)

Lemma run_app (a b : list (nat * Bus)) (sys : System) :
  run (a ++ b) sys
  = (fst (run b (fst (run a sys))),
     (snd (run a sys) ++ snd (run b (fst (run a sys))))%list).
Proof.
  revert sys. induction a as [|[i bus] a IH]; intros sys.
  - cbn [app run fst snd]. destruct (run b sys); reflexivity.
  - change (((i, bus) :: a) ++ b)%list with ((i, bus) :: (a ++ b))%list.
    rewrite !run_cons, IH. cbn [fst snd]. rewrite app_assoc. reflexivity.
Qed.

Lemma last_nonempty {A} (x : A) (l : list A) (d d' : A) :
  last (x :: l) d = last (x :: l) d'.
Proof.
  revert x. induction l as [|y l IH]; intros x; [reflexivity|].
  change (last (y :: l) d = last (y :: l) d'). apply IH.
Qed.

Lemma last_app_default {A} (a b : list A) (d : A) :
  last (a ++ b) d = last b (last a d).
Proof.
  revert d. induction a as [|x a IH]; intros d; [reflexivity|].
  destruct a as [|y a'].
  - cbn [app]. destruct b as [|z b]; [reflexivity|].
    change (last (z :: b) d = last (z :: b) x). apply last_nonempty.
  - change (last ((y :: a') ++ b) d = last b (last (y :: a') d)).
    apply IH.
Qed.

Lemma tick_registered (bus : Bus) (st : Stage) :
  (registered_so_far (controller (system_of st))
   ++ registered (tick_events bus st))%list
  = registered_so_far (controller (system_of (next_stage bus st))).
Proof.
  destruct st as [|n w|n p w]; cbn [next_stage].
  - rewrite tick_events_searching.
    destruct (probe_events_quiet bus
                (probed bus (seq 0 MAX_RELAY_NUMBER_TO_CHECK))) as (Hq & _).
    unfold registered in *. cbn [flat_map app]. rewrite flat_map_app, Hq.
    destruct (find _ _); reflexivity.
  - rewrite tick_events_starting. unfold registered.
    destruct (ac_source bus) as [v|]; rewrite !flat_map_app;
      fold (registered (read_events bus SYSTEM_SERVICE AC_ACTIVE_INPUT_SOURCE_PATH));
      try fold (registered (write_events bus n (relay_command v)));
      rewrite registered_read, ?registered_write; destruct w; reflexivity.
  - rewrite tick_events_watching. unfold registered.
    destruct (ac_source bus) as [v|]; rewrite !flat_map_app;
      fold (registered (read_events bus SYSTEM_SERVICE AC_ACTIVE_INPUT_SOURCE_PATH));
      rewrite registered_read;
      [destruct (py_eqb (Some v) (Some p)); cbn [flat_map app];
       try fold (registered (write_events bus n (relay_command v)));
       rewrite ?registered_write|];
      destruct w; reflexivity.
Qed.

Lemma relay_command_binary (v : PyVal) :
  relay_command v = 0 \/ relay_command v = 1.
Proof.
  unfold relay_command.
  destruct (str_in (_interpret_ac_source v) ["Grid"; "Shore"]); auto.
Qed.

Lemma write_targets_read (bus : Bus) (s p : string) :
  write_targets (read_events bus s p) = [].
Proof.
  unfold read_events. destruct (bus s p) as [[[g|] ?]|]; reflexivity.
Qed.

Lemma write_targets_write (bus : Bus) (n : nat) (v : Z) :
  write_targets (write_events bus n v)
  = [(SYSTEM_SERVICE, relay_state_path n, v)].
Proof.
  unfold write_events.
  destruct (bus SYSTEM_SERVICE (relay_state_path n)) as [[g sv]|];
    [cbn; destruct (sv v)|]; reflexivity.
Qed.

Lemma write_targets_probe (bus : Bus) (l : list nat) :
  write_targets (probe_events bus l) = [].
Proof.
  induction l as [|k l IH]; [reflexivity|].
  unfold probe_events in *. cbn [flat_map].
  rewrite flat_map_app, IH, write_targets_read. reflexivity.
Qed.

Lemma tick_write_targets (bus : Bus) (st : Stage) :
  write_targets (tick_events bus st)
  = map (fun pv => (SYSTEM_SERVICE, fst pv, snd pv))
        (relay_writes (tick_events bus st)).
Proof.
  destruct st as [|n w|n p w].
  - rewrite tick_events_searching.
    cbn [flat_map write_target relay_write app].
    rewrite !flat_map_app, write_targets_probe.
    destruct (probe_events_quiet bus
                (probed bus (seq 0 MAX_RELAY_NUMBER_TO_CHECK)))
      as (_ & _ & _ & _ & _ & ->).
    destruct (find _ _); reflexivity.
  - rewrite tick_events_starting. destruct (ac_source bus);
      rewrite !flat_map_app, ?write_targets_read, ?write_targets_write,
        ?relay_writes_read, ?relay_writes_write; destruct w; reflexivity.
  - rewrite tick_events_watching. destruct (ac_source bus) as [v|];
      rewrite !flat_map_app, ?write_targets_read, ?relay_writes_read;
      [destruct (py_eqb (Some v) (Some p))|];
      cbn [flat_map write_target relay_write app];
      rewrite ?write_targets_write, ?relay_writes_write;
      destruct w; reflexivity.
Qed.

(** X3: exactly one timer is registered at any moment of a run, and the
    controller's flags tell which: the locator's until a relay is found, the
    initial state setter's until the initial state is set, the monitor's from
    then on.  The relay number is there exactly when [relay_found] is set,
    and a previous value exactly when the initial state is set. *)
Theorem one_timer_at_a_time (schedule : list (nat * Bus)) :
  let s := fst (run schedule boot) in
  timers s
  = [if initial_state_set (controller s) then Monitor
     else if relay_found (controller s) then Initializer
          else Locator]
  /\ (relay_found (controller s) = true
      <-> water_heater_relay_number (controller s) <> None)
  /\ (initial_state_set (controller s) = true
      <-> previous_ac_source (controller s) <> None)
  /\ (relay_found (controller s) = false ->
      _ac_source_unavailable_warning_logged (controller s) = false).
Proof.
  cbn zeta. destruct (run_stage schedule Searching) as (st & E & _).
  change (system_of Searching) with boot in E. rewrite E.
  destruct st; cbn; repeat split; intros; congruence.
Qed.

Lemma registry_reads_write (bus : Bus) (n : nat) (v : Z) :
  registry_reads (write_events bus n v) = [].
Proof.
  unfold write_events.
  destruct (bus SYSTEM_SERVICE (relay_state_path n)) as [[g sv]|];
    [cbn; destruct (sv v)|]; reflexivity.
Qed.

Lemma tick_registry_reads (bus : Bus) (st : Stage) :
  stage_relay st <> None ->
  registry_reads (tick_events bus st)
  = [(SYSTEM_SERVICE, AC_ACTIVE_INPUT_SOURCE_PATH, ac_source bus)].
Proof.
  intros H. destruct st as [|n w|n p w]; [contradiction|..].
  - rewrite tick_events_starting. destruct (ac_source bus) eqn:Hv;
      rewrite !flat_map_app, registry_reads_read, ?registry_reads_write;
      fold (ac_source bus); rewrite Hv; destruct w; reflexivity.
  - rewrite tick_events_watching. destruct (ac_source bus) as [v|] eqn:Hv;
      rewrite !flat_map_app, registry_reads_read;
      fold (ac_source bus); rewrite Hv;
      [destruct (py_eqb (Some v) (Some p))|];
      cbn [flat_map registry_read app]; rewrite ?registry_reads_write;
      destruct w; reflexivity.
Qed.

Lemma run_located (schedule : list (nat * Bus)) (st : Stage) :
  stage_relay st <> None ->
  Forall (fun r => fst r = (SYSTEM_SERVICE, AC_ACTIVE_INPUT_SOURCE_PATH))
         (registry_reads (snd (run schedule (system_of st)))).
Proof.
  revert st. induction schedule as [|[i bus] rest IH]; intros st H;
    [constructor|].
  rewrite run_cons. cbn [fst snd]. destruct i as [|i].
  - rewrite dispatch_fire. cbn [fst snd]. rewrite flat_map_app.
    apply Forall_app. split.
    + rewrite (tick_registry_reads bus st H). repeat constructor.
    + apply IH. destruct st; cbn in *; [contradiction|..];
        destruct (ac_source bus); discriminate.
  - rewrite dispatch_idle. cbn [fst snd app]. apply IH, H.
Qed.

(** X4: once a relay has been located, nothing that happens later changes the
    relay number, and the settings registry is never read again: the
    locator does not scan a second time, even when the label it found
    disappears from the bus. *)
Theorem located_relay_never_changes (schedule more : list (nat * Bus))
    (n : nat)
    (Hlocated : water_heater_relay_number
                  (controller (fst (run schedule boot))) = Some n) :
  water_heater_relay_number
    (controller (fst (run (schedule ++ more) boot))) = Some n
  /\ Forall (fun r => fst r = (SYSTEM_SERVICE, AC_ACTIVE_INPUT_SOURCE_PATH))
            (registry_reads (snd (run more (fst (run schedule boot))))).
Proof.
  rewrite run_app. cbn [fst].
  destruct (run_stage schedule Searching) as (st & E & _).
  change (system_of Searching) with boot in E. rewrite E in *.
  rewrite (proj1 (controller_of_stage st)) in Hlocated.
  split.
  - destruct (run_stage more st) as (st' & E' & Hr). rewrite E'.
    rewrite (proj1 (controller_of_stage st')). apply Hr, Hlocated.
  - apply run_located. congruence.
Qed.

Lemma located_relay_never_changes_witness :
  let found := sample_bus boat_labels (Some 1) true in
  let gone := sample_bus [Some "AC WH"] (Some 2) true in
  water_heater_relay_number
    (controller (fst (run [(0%nat, found)] boot))) = Some 1%nat
  /\ slot_matches gone 0 = true
  /\ water_heater_relay_number
       (controller (fst (run ([(0%nat, found)]
                              ++ [(0%nat, gone); (0%nat, gone)]) boot)))
     = Some 1%nat.
Proof.
  cbn zeta. split; [reflexivity|]. split; [reflexivity|].
  apply (located_relay_never_changes
           [(0%nat, sample_bus boat_labels (Some 1) true)]
           [(0%nat, sample_bus [Some "AC WH"] (Some 2) true);
            (0%nat, sample_bus [Some "AC WH"] (Some 2) true)] 1%nat eq_refl).
Defined.

Lemma run_write_targets (schedule : list (nat * Bus)) (st : Stage) :
  Forall (fun t =>
            fst (fst t) = SYSTEM_SERVICE
            /\ (snd t = 0 \/ snd t = 1)
            /\ exists n,
                 water_heater_relay_number
                   (controller (fst (run schedule (system_of st)))) = Some n
                 /\ snd (fst t) = relay_state_path n)
         (write_targets (snd (run schedule (system_of st)))).
Proof.
  revert st. induction schedule as [|[i bus] rest IH]; intros st;
    [constructor|].
  rewrite run_cons. cbn [fst snd]. destruct i as [|i].
  - rewrite dispatch_fire. cbn [fst snd]. rewrite flat_map_app.
    apply Forall_app. split; [|apply IH].
    rewrite tick_write_targets, tick_relay_writes.
    destruct (run_stage rest (next_stage bus st)) as (st' & E & Hr).
    rewrite E, (proj1 (controller_of_stage st')).
    destruct st as [|n w|n p w]; [constructor|..];
      (destruct (ac_source bus) as [v|] eqn:Hv; [|constructor]);
      [|destruct (py_eqb (Some v) (Some p)); [constructor|]];
      (constructor; [|constructor]); cbn [fst snd];
      (split; [reflexivity|]); (split; [apply relay_command_binary|]);
      exists n; (split; [|reflexivity]); apply Hr; cbn; rewrite Hv;
      reflexivity.
  - rewrite dispatch_idle. cbn [fst snd app]. apply IH.
Qed.

(** X5: every write of a run goes to the system service, to the state path of
    the relay that was located, with value 0 or 1; no other object is ever
    written. *)
Theorem writes_only_to_located_relay (schedule : list (nat * Bus)) :
  Forall (fun t =>
            fst (fst t) = SYSTEM_SERVICE
            /\ (snd t = 0 \/ snd t = 1)
            /\ exists n,
                 water_heater_relay_number
                   (controller (fst (run schedule boot))) = Some n
                 /\ snd (fst t) = relay_state_path n)
         (write_targets (snd (run schedule boot))).
Proof. apply (run_write_targets schedule Searching). Qed.

Lemma run_previous_last (schedule : list (nat * Bus)) (st : Stage) :
  previous_ac_source (controller (fst (run schedule (system_of st))))
  = last (map Some (readings (snd (run schedule (system_of st)))))
         (stage_previous st).
Proof.
  revert st. induction schedule as [|[i bus] rest IH]; intros st.
  - cbn [run fst snd flat_map map last].
    apply (proj1 (proj2 (controller_of_stage st))).
  - rewrite run_cons. cbn [fst snd]. destruct i as [|i].
    + rewrite dispatch_fire. cbn [fst snd].
      rewrite flat_map_app, map_app, last_app_default, IH, tick_previous,
        tick_readings.
      destruct (tick_reading bus st); reflexivity.
    + rewrite dispatch_idle. cbn [fst snd app]. apply IH.
Qed.

Lemma run_warned_last (schedule : list (nat * Bus)) (st : Stage) :
  _ac_source_unavailable_warning_logged
    (controller (fst (run schedule (system_of st))))
  = negb (last (ac_outcomes (snd (run schedule (system_of st))))
               (negb (stage_warned st))).
Proof.
  revert st. induction schedule as [|[i bus] rest IH]; intros st.
  - cbn [run fst snd flat_map last]. rewrite negb_involutive.
    apply (proj2 (proj2 (controller_of_stage st))).
  - rewrite run_cons. cbn [fst snd]. destruct i as [|i].
    + rewrite dispatch_fire. cbn [fst snd].
      rewrite flat_map_app, last_app_default, IH, tick_warned,
        tick_ac_outcomes.
      destruct st; cbn [last]; [reflexivity|..];
        destruct (ac_source bus); reflexivity.
    + rewrite dispatch_idle. cbn [fst snd app]. apply IH.
Qed.

(** X6: at every moment of a run the recorded previous value is the latest
    value read from the AC source ([None] while none has been read), and the
    warning flag is set exactly when the latest source read failed. *)
Theorem controller_tracks_latest_read (schedule : list (nat * Bus)) :
  previous_ac_source (controller (fst (run schedule boot)))
  = last (map Some (readings (snd (run schedule boot)))) None
  /\ _ac_source_unavailable_warning_logged
       (controller (fst (run schedule boot)))
     = negb (last (ac_outcomes (snd (run schedule boot))) true).
Proof.
  split.
  - apply (run_previous_last schedule Searching).
  - apply (run_warned_last schedule Searching).
Qed.

Lemma run_registered (schedule : list (nat * Bus)) (st : Stage) :
  (registered_so_far (controller (system_of st))
   ++ registered (snd (run schedule (system_of st))))%list
  = registered_so_far (controller (fst (run schedule (system_of st)))).
Proof.
  revert st. induction schedule as [|[i bus] rest IH]; intros st.
  - cbn [run fst snd]. apply app_nil_r.
  - rewrite run_cons. cbn [fst snd]. destruct i as [|i].
    + rewrite dispatch_fire. cbn [fst snd]. unfold registered.
      rewrite flat_map_app. fold (registered (tick_events bus st)).
      fold (registered (snd (run rest (system_of (next_stage bus st))))).
      rewrite app_assoc, tick_registered. apply IH.
    + rewrite dispatch_idle. cbn [fst snd app]. apply IH.
Qed.

(** X7: over a whole run each follow-up timer is registered at most once, the
    initial state setter's when the relay is found and the monitor's when
    the initial state is set; the locator's timer is never registered
    again. *)
Theorem timers_registered_once (schedule : list (nat * Bus)) :
  registered (snd (run schedule boot))
  = registered_so_far (controller (fst (run schedule boot))).
Proof. apply (run_registered schedule Searching). Qed.

(** ** Behaviour of single callbacks on any controller *)

Lemma events_registered_app (a b : list Event) :
  registered (a ++ b) = (registered a ++ registered b)%list.
Proof. unfold registered. apply flat_map_app. Qed.

(** X8: the monitor never cancels itself and never registers a timer, whatever
    the controller and the bus; it leaves the relay number, the
    initial-state flag and [relay_found] as they are. *)
Theorem monitor_never_cancels (bus : Bus) (c : Controller) :
  let r := _monitor_ac_input_source bus c in
  retval r = true
  /\ registered (events r) = []
  /\ water_heater_relay_number (ctl_after r) = water_heater_relay_number c
  /\ initial_state_set (ctl_after r) = initial_state_set c
  /\ relay_found (ctl_after r) = relay_found c.
Proof.
  cbn zeta.
  destruct (initial_state_set c) eqn:Hs;
    [destruct (water_heater_relay_number c) as [n|] eqn:Hr|].
  - destruct (ac_source bus) as [v|] eqn:Hv.
    + rewrite (monitor_readable bus c n v Hs Hr Hv).
      cbn [retval ctl_after events water_heater_relay_number
           initial_state_set relay_found].
      rewrite !events_registered_app, registered_read.
      repeat split.
      destruct (_ac_source_unavailable_warning_logged c),
        (py_eqb (Some v) (previous_ac_source c)); try reflexivity;
        change (registered (write_events bus n (relay_command v)) = []);
        apply registered_write.
    + rewrite (monitor_unreadable bus c n Hs Hr Hv).
      cbn [retval ctl_after events water_heater_relay_number
           initial_state_set relay_found].
      rewrite !events_registered_app, registered_read.
      repeat split.
      destruct (_ac_source_unavailable_warning_logged c); reflexivity.
  - rewrite (monitor_guard bus c) by (right; exact Hr).
    cbn. rewrite Hs, Hr. repeat split.
  - rewrite (monitor_guard bus c) by (left; exact Hs).
    cbn. rewrite Hs. repeat split.
Qed.

(** X9: running a callback a second time against the same bus changes nothing:
    the controller stays as the first run left it, no relay write is issued
    and no timer is registered. *)
Theorem callbacks_idempotent_on_stable_bus (cb : Callback) (bus : Bus)
    (c : Controller) :
  let r1 := run_callback cb bus c in
  let r2 := run_callback cb bus (ctl_after r1) in
  ctl_after r2 = ctl_after r1
  /\ relay_writes (events r2) = []
  /\ registered (events r2) = [].
Proof.
  cbn zeta. destruct cb; cbn [run_callback].
  - destruct (relay_found c) eqn:Hf.
    + rewrite (locator_guard bus c Hf). cbn [ctl_after].
      rewrite (locator_guard bus c Hf). repeat split.
    + rewrite (locator_scan bus c Hf).
      destruct (find (slot_matches bus) (seq 0 MAX_RELAY_NUMBER_TO_CHECK))
        as [k|] eqn:Hk; cbn [ctl_after].
      * rewrite (locator_guard bus (located k c)) by reflexivity.
        repeat split.
      * rewrite (locator_scan bus c Hf), Hk. cbn [ctl_after events].
        destruct (probe_events_quiet bus
                    (probed bus (seq 0 MAX_RELAY_NUMBER_TO_CHECK)))
          as (Hreg & _ & _ & _ & _ & Hw).
        split; [reflexivity|]. split.
        -- cbn [flat_map relay_write app]. rewrite flat_map_app, Hw.
           reflexivity.
        -- change (registered (probe_events bus
                     (probed bus (seq 0 MAX_RELAY_NUMBER_TO_CHECK))
                     ++ [ELog INFO MsgNotFoundYet]) = []).
           rewrite events_registered_app, Hreg. reflexivity.
  - destruct (initial_state_set c) eqn:Hs;
      [|destruct (water_heater_relay_number c) as [n|] eqn:Hr].
    + rewrite (initializer_guard bus c) by (left; exact Hs). cbn [ctl_after].
      rewrite (initializer_guard bus c) by (left; exact Hs). repeat split.
    + destruct (ac_source bus) as [v|] eqn:Hv.
      * rewrite (initializer_readable bus c n v Hs Hr Hv). cbn [ctl_after].
        rewrite initializer_guard by (left; reflexivity). repeat split.
      * rewrite (initializer_unreadable bus c n Hs Hr Hv). cbn [ctl_after].
        rewrite (initializer_unreadable bus _ n) by (reflexivity || exact Hv).
        cbn [ctl_after events previous_ac_source relay_found
             _ac_source_unavailable_warning_logged].
        rewrite flat_map_app, events_registered_app, relay_writes_read,
          registered_read. repeat split.
    + rewrite (initializer_guard bus c) by (right; exact Hr). cbn [ctl_after].
      rewrite (initializer_guard bus c) by (right; exact Hr). repeat split.
  - destruct (initial_state_set c) eqn:Hs;
      [destruct (water_heater_relay_number c) as [n|] eqn:Hr|].
    + destruct (ac_source bus) as [v|] eqn:Hv.
      * rewrite (monitor_readable bus c n v Hs Hr Hv). cbn [ctl_after].
        rewrite (monitor_readable bus _ n v) by (reflexivity || exact Hv).
        cbn [ctl_after events previous_ac_source relay_found
             _ac_source_unavailable_warning_logged].
        replace (py_eqb (Some v) (Some v)) with true
          by (symmetry; apply py_eqb_eq; reflexivity).
        rewrite !flat_map_app, !events_registered_app, relay_writes_read,
          registered_read. repeat split.
      * rewrite (monitor_unreadable bus c n Hs Hr Hv). cbn [ctl_after].
        rewrite (monitor_unreadable bus _ n) by (reflexivity || exact Hv).
        cbn [ctl_after events previous_ac_source relay_found
             _ac_source_unavailable_warning_logged].
        rewrite flat_map_app, events_registered_app, relay_writes_read,
          registered_read. repeat split.
    + rewrite (monitor_guard bus c) by (right; exact Hr). cbn [ctl_after].
      rewrite (monitor_guard bus c) by (right; exact Hr). repeat split.
    + rewrite (monitor_guard bus c) by (left; exact Hs). cbn [ctl_after].
      rewrite (monitor_guard bus c) by (left; exact Hs). repeat split.
Qed.

(** X10: a reading that is a string, not an integer, is classified Unknown and
    switches the relay off, also when the string spells a known category or
    a known code. *)
Theorem string_reading_turns_relay_off (s : string) (bus : Bus) (n : nat)
    (Hsrc : ac_source bus = Some (PStr s)) :
  _interpret_ac_source (PStr s) = ("Unknown (" ++ s ++ ")")%string
  /\ relay_command (PStr s) = 0
  /\ relay_writes
       (events (_initialize_monitoring bus
                  (mkController (Some n) None false true false)))
     = [(relay_state_path n, 0)].
Proof.
  assert (Hc : relay_command (PStr s) = 0) by reflexivity.
  split; [reflexivity|]. split; [exact Hc|].
  rewrite (initializer_readable bus
             (mkController (Some n) None false true false) n (PStr s)
             eq_refl eq_refl Hsrc).
  cbn [events _ac_source_unavailable_warning_logged].
  rewrite !flat_map_app, relay_writes_read, relay_writes_write, Hc.
  reflexivity.
Qed.

Lemma string_reading_turns_relay_off_witness :
  let bus : Bus :=
    fun service path =>
      if String.eqb path AC_ACTIVE_INPUT_SOURCE_PATH
      then item (PStr "Grid") false else None in
  ac_source bus = Some (PStr "Grid")
  /\ _interpret_ac_source (PStr "Grid") = "Unknown (Grid)"
  /\ relay_writes
       (events (_initialize_monitoring bus
                  (mkController (Some 2%nat) None false true false)))
     = [("/Relay/2/State", 0)].
Proof.
  cbn zeta. split; [reflexivity|].
  destruct (string_reading_turns_relay_off "Grid"
              (fun service path =>
                 if String.eqb path AC_ACTIVE_INPUT_SOURCE_PATH
                 then item (PStr "Grid") false else None)
              2%nat eq_refl) as (H1 & _ & H3).
  split; [exact H1|exact H3].
Defined.

(** ** Any order of invocation *)

Lemma callback_on_stage (cb : Callback) (bus : Bus) (st : Stage) :
  exists st',
    ctl_after (run_callback cb bus (controller (system_of st)))
    = controller (system_of st').
Proof.
  assert (Hfire :
    ctl_after (run_callback (stage_callback st) bus (controller (system_of st)))
    = controller (system_of (next_stage bus st))).
  { assert (E := dispatch_fire bus st). unfold dispatch in E.
    destruct st; cbn [system_of boot timers nth_error] in E;
      apply (f_equal fst), (f_equal controller) in E; exact E. }
  destruct st as [|n w|n p w], cb;
    try (eexists; exact Hfire); cbn [run_callback].
  - exists Searching.
    rewrite initializer_guard by (right; reflexivity). reflexivity.
  - exists Searching.
    rewrite monitor_guard by (left; reflexivity). reflexivity.
  - exists (Starting n w). rewrite locator_guard by reflexivity. reflexivity.
  - exists (Starting n w).
    rewrite monitor_guard by (left; reflexivity). reflexivity.
  - exists (Watching n p w). rewrite locator_guard by reflexivity.
    reflexivity.
  - exists (Watching n p w).
    rewrite initializer_guard by (left; reflexivity). reflexivity.
Qed.

(** X11: whatever callbacks are invoked on the fresh controller, in whatever
    order and against whatever bus, its fields stay consistent: a relay
    number is there exactly when [relay_found] is set, a previous value
    exactly when the initial state is set, the initial state is set only
    with a relay found, and before a relay is found the warning flag is
    clear. *)
Theorem controller_fields_consistent (calls : list (Callback * Bus)) :
  let c := invoke_all calls init_controller in
  (relay_found c = true <-> water_heater_relay_number c <> None)
  /\ (initial_state_set c = true <-> previous_ac_source c <> None)
  /\ (initial_state_set c = true -> relay_found c = true)
  /\ (relay_found c = false ->
      _ac_source_unavailable_warning_logged c = false).
Proof.
  cbn zeta.
  assert (H : forall st, exists st',
             invoke_all calls (controller (system_of st))
             = controller (system_of st')).
  { induction calls as [|[cb bus] rest IH]; intros st.
    - exists st. reflexivity.
    - cbn [invoke_all]. destruct (callback_on_stage cb bus st) as (st1 & ->).
      apply IH. }
  destruct (H Searching) as (st & E).
  change (controller (system_of Searching)) with init_controller in E.
  rewrite E. destruct st; cbn; repeat split; intros; congruence.
Qed.

(** ** Start-up *)

(** X12: while no slot carries a target label the program only scans: the
    controller stays as constructed with the locator's timer registered, the
    AC source is never read, nothing is written and no other timer is
    registered. *)
Theorem unlocated_run_is_inert (schedule : list (nat * Bus))
    (Hnone : Forall (fun ib => find (slot_matches (snd ib))
                                    (seq 0 MAX_RELAY_NUMBER_TO_CHECK) = None)
                    schedule) :
  fst (run schedule boot) = boot
  /\ write_targets (snd (run schedule boot)) = []
  /\ ac_outcomes (snd (run schedule boot)) = []
  /\ registered (snd (run schedule boot)) = [].
Proof.
  induction schedule as [|[i bus] rest IH]; [repeat split|].
  inversion Hnone as [|x l Hb Hrest]; subst. cbn [snd] in Hb.
  specialize (IH Hrest). destruct IH as (I1 & I2 & I3 & I4).
  change boot with (system_of Searching) in *.
  rewrite run_cons. cbn [fst snd]. destruct i as [|i].
  - rewrite dispatch_fire. cbn [fst snd next_stage]. rewrite Hb.
    rewrite !flat_map_app, events_registered_app, I1, I2, I3, I4,
      tick_write_targets.
    destruct (tick_quiet_searching bus) as (_ & _ & -> & ->).
    assert (R := tick_registered bus Searching). cbn [next_stage] in R.
    rewrite Hb in R.
    change (registered_so_far (controller (system_of Searching)))
      with (@nil Callback) in R.
    cbn [app] in R. rewrite R. repeat split.
  - rewrite dispatch_idle. cbn [fst snd app]. repeat split; assumption.
Qed.

Lemma unlocated_run_is_inert_witness :
  let bus := sample_bus [Some "Bilge"; None; Some "Lights"] (Some 1) true in
  find (slot_matches bus) (seq 0 MAX_RELAY_NUMBER_TO_CHECK) = None
  /\ fst (run [(0%nat, bus); (0%nat, bus); (0%nat, bus)] boot) = boot
  /\ write_targets (snd (run [(0%nat, bus); (0%nat, bus); (0%nat, bus)] boot))
     = [].
Proof.
  cbn zeta.
  assert (H : find (slot_matches
                      (sample_bus [Some "Bilge"; None; Some "Lights"]
                         (Some 1) true))
                   (seq 0 MAX_RELAY_NUMBER_TO_CHECK) = None) by reflexivity.
  split; [exact H|].
  destruct (unlocated_run_is_inert
              [(0%nat, sample_bus [Some "Bilge"; None; Some "Lights"]
                         (Some 1) true);
               (0%nat, sample_bus [Some "Bilge"; None; Some "Lights"]
                         (Some 1) true);
               (0%nat, sample_bus [Some "Bilge"; None; Some "Lights"]
                         (Some 1) true)])
    as (H1 & H2 & _).
  - repeat constructor; exact H.
  - split; [exact H1|exact H2].
Defined.

(** X13: two firings bring the program to steady state: on a bus whose first
    matching slot is [k] the locator records [k]; on a bus whose source
    reads [v] the initial state setter then issues the one write for [v],
    records it and hands over to the monitor. *)
Theorem start_up_in_two_firings (bus1 bus2 : Bus) (k : nat) (v : PyVal)
    (Hslot : find (slot_matches bus1) (seq 0 MAX_RELAY_NUMBER_TO_CHECK)
             = Some k)
    (Hsrc : ac_source bus2 = Some v) :
  fst (run [(0%nat, bus1); (0%nat, bus2)] boot)
  = mkSystem (mkController (Some k) (Some v) true true false) [Monitor]
  /\ write_targets (snd (run [(0%nat, bus1); (0%nat, bus2)] boot))
     = [(SYSTEM_SERVICE, relay_state_path k, relay_command v)]
  /\ registered (snd (run [(0%nat, bus1); (0%nat, bus2)] boot))
     = [Initializer; Monitor].
Proof.
  change boot with (system_of Searching).
  rewrite !run_cons. cbn [run fst snd]. rewrite dispatch_fire.
  cbn [fst snd next_stage]. rewrite Hslot, dispatch_fire.
  cbn [fst snd next_stage]. rewrite Hsrc, app_nil_r.
  split; [reflexivity|].
  rewrite flat_map_app, events_registered_app, !tick_write_targets,
    !tick_relay_writes, Hsrc.
  split; [reflexivity|].
  assert (R1 := tick_registered bus1 Searching).
  assert (R2 := tick_registered bus2 (Starting k false)).
  cbn [next_stage] in R1, R2. rewrite Hslot in R1. rewrite Hsrc in R2.
  change (registered (tick_events bus1 Searching) = [Initializer]) in R1.
  change ((Initializer :: registered (tick_events bus2 (Starting k false)))
          = [Initializer; Monitor]) in R2.
  rewrite R1. injection R2 as ->. reflexivity.
Qed.

Lemma start_up_in_two_firings_witness :
  let bus1 := sample_bus boat_labels None true in
  let bus2 := sample_bus [] (Some 4) false in
  find (slot_matches bus1) (seq 0 MAX_RELAY_NUMBER_TO_CHECK) = Some 1%nat
  /\ ac_source bus2 = Some (PInt 4)
  /\ write_targets (snd (run [(0%nat, bus1); (0%nat, bus2)] boot))
     = [(SYSTEM_SERVICE, "/Relay/1/State", 1)].
Proof.
  cbn zeta. split; [reflexivity|]. split; [reflexivity|].
  apply (start_up_in_two_firings (sample_bus boat_labels None true)
           (sample_bus [] (Some 4) false) 1%nat (PInt 4) eq_refl eq_refl).
Defined.

(** ** Registry paths *)

Lemma string_length_append (x y : string) :
  String.length (x ++ y) = (String.length x + String.length y)%nat.
Proof. induction x as [|a x IH]; cbn; [reflexivity|]. rewrite IH. reflexivity. Qed.

Lemma append_inv_tail (x y t : string) :
  (x ++ t)%string = (y ++ t)%string -> x = y.
Proof.
  revert y. induction x as [|a x IH]; intros [|b y] H.
  - reflexivity.
  - apply (f_equal String.length) in H. cbn in H.
    rewrite string_length_append in H. lia.
  - apply (f_equal String.length) in H. cbn in H.
    rewrite string_length_append in H. lia.
  - cbn in H. injection H as -> H. f_equal. apply IH, H.
Qed.

Lemma str_of_nat_inj (n m : nat) : str_of_nat n = str_of_nat m -> n = m.
Proof.
  unfold str_of_nat. intros H.
  assert (P : forall k,
             option_map Nat.of_uint
               (NilZero.uint_of_string
                  (NilZero.string_of_uint (Nat.to_uint k))) = Some k).
  { intros k. destruct (Nat.to_uint k) eqn:E;
      try (rewrite NilZero.usu by discriminate; cbn [option_map];
           rewrite <- E, DecimalNat.Unsigned.of_to; reflexivity).
    cbn. f_equal. rewrite <- (DecimalNat.Unsigned.of_to k), E. reflexivity. }
  assert (Pn := P n). rewrite H, P in Pn. congruence.
Qed.

(** X14: distinct slots have distinct registry paths, so a read or write meant
    for one relay cannot reach another; and no slot's label or relay state
    path is the AC source path. *)
Theorem registry_paths_distinct (n m : nat) :
  (custom_name_path n = custom_name_path m -> n = m)
  /\ (relay_state_path n = relay_state_path m -> n = m)
  /\ custom_name_path n <> AC_ACTIVE_INPUT_SOURCE_PATH
  /\ relay_state_path n <> AC_ACTIVE_INPUT_SOURCE_PATH
  /\ custom_name_path n <> relay_state_path m.
Proof.
  unfold custom_name_path, relay_state_path, SETTINGS_RELAY_BASE_PATH,
    RELAY_PATH_BASE, CUSTOM_NAME_PATH_SUFFIX, STATE_PATH_SUFFIX,
    AC_ACTIVE_INPUT_SOURCE_PATH.
  repeat split.
  - intros H. cbn in H. repeat injection H as H.
    apply str_of_nat_inj, (append_inv_tail _ _ "/CustomName"), H.
  - intros H. cbn in H. repeat injection H as H.
    apply str_of_nat_inj, (append_inv_tail _ _ "/State"), H.
  - cbn. discriminate.
  - cbn. discriminate.
  - cbn. discriminate.
Qed.
